(** * MemeCoinTrader: a shallow embedding of [meme_coin_trader.py]

    The development follows the Python class [MemeCoinTrader]:
    the class-level registry [SUPPORTED_DEXES], the constructor
    [__init__], and the four public methods [get_token_price],
    [buy_token], [sell_token] and [approve_token].

    External collaborators of the class (the JSON-RPC node reached through
    [web3], the key derivation and the signer of [eth_account], the values
    read by [decouple.config], the ABI files) are abstracted by the record
    [Externals]; the address canonicalisation [Web3.to_checksum_address]
    and the unit conversions [Web3.to_wei] / [Web3.from_wei] are modelled
    executably, the former down to Keccak-256. *)

From Stdlib Require Import ZArith List Ascii String Lia.
From stdpp Require Import base option gmap strings.

Open Scope string_scope.
Open Scope list_scope.
Open Scope Z_scope.

(** ** Keccak-256 (the hash behind EIP-55 checksums) *)

Module Keccak.

(** A lane is a 64-bit word, kept as a [Z] in [0, 2^64). *)
Definition w64 (x : Z) : Z := Z.land x (Z.ones 64).

Definition rotl64 (x : Z) (n : Z) : Z :=
  w64 (Z.lor (Z.shiftl x n) (Z.shiftr x (64 - n))).

Definition not64 (x : Z) : Z := Z.lxor x (Z.ones 64).

(** The state is the 5x5 lane matrix, stored row-major: lane (x, y) sits
    at index [x + 5 * y]. *)
Definition lane (st : list Z) (x y : nat) : Z :=
  nth ((x mod 5) + 5 * (y mod 5))%nat st 0.

Definition idx5 : list nat := [0; 1; 2; 3; 4]%nat.

Definition build (f : nat -> nat -> Z) : list Z :=
  flat_map (fun y => map (fun x => f x y) idx5) idx5.

Definition rotation_offsets : list Z :=
  [  0;  1; 62; 28; 27;
    36; 44;  6; 55; 20;
     3; 10; 43; 25; 39;
    41; 45; 15; 21;  8;
    18;  2; 61; 56; 14 ].

Definition round_constants : list Z :=
  [ 0x0000000000000001; 0x0000000000008082; 0x800000000000808A;
    0x8000000080008000; 0x000000000000808B; 0x0000000080000001;
    0x8000000080008081; 0x8000000000008009; 0x000000000000008A;
    0x0000000000000088; 0x0000000080008009; 0x000000008000000A;
    0x000000008000808B; 0x800000000000008B; 0x8000000000008089;
    0x8000000000008003; 0x8000000000008002; 0x8000000000000080;
    0x000000000000800A; 0x800000008000000A; 0x8000000080008081;
    0x8000000000008080; 0x0000000080000001; 0x8000000080008008 ].

Definition theta (a : list Z) : list Z :=
  let c x := fold_right Z.lxor 0 (map (fun y => lane a x y) idx5) in
  let d x := Z.lxor (c (x + 4)%nat) (rotl64 (c (x + 1)%nat) 1) in
  build (fun x y => Z.lxor (lane a x y) (d x)).

(** rho and pi together: [b[y][2x+3y] = rot(a[x][y], r[x][y])]; read
    backwards, lane (X, Y) of the result comes from lane
    (x, y) = (X + 3Y, X) of the argument. *)
Definition rho_pi (a : list Z) : list Z :=
  build (fun X Y =>
    let x := ((X + 3 * Y) mod 5)%nat in
    let y := X in
    rotl64 (lane a x y) (nth (x + 5 * y)%nat rotation_offsets 0)).

Definition chi (b : list Z) : list Z :=
  build (fun x y =>
    Z.lxor (lane b x y)
           (Z.land (not64 (lane b (x + 1) y)) (lane b (x + 2) y))).

Definition iota (rc : Z) (a : list Z) : list Z :=
  match a with
  | [] => []
  | a0 :: rest => Z.lxor a0 rc :: rest
  end.

Definition keccak_round (a : list Z) (rc : Z) : list Z :=
  iota rc (chi (rho_pi (theta a))).

Definition keccak_f (a : list Z) : list Z :=
  fold_left keccak_round round_constants a.

(** Bytes are [Z] in [0, 256). The rate of Keccak-256 is 136 bytes,
    that is 17 lanes. *)
Definition rate : nat := 136.

Fixpoint le_word (bs : list Z) : Z :=
  match bs with
  | [] => 0
  | b :: rest => Z.lor b (Z.shiftl (le_word rest) 8)
  end.

Fixpoint lanes_of_bytes (n : nat) (bs : list Z) : list Z :=
  match n with
  | O => []
  | S n' => le_word (firstn 8 bs) :: lanes_of_bytes n' (skipn 8 bs)
  end.

Fixpoint xor_into (st blk : list Z) : list Z :=
  match st, blk with
  | s :: st', b :: blk' => Z.lxor s b :: xor_into st' blk'
  | _, _ => st
  end.

(** Original Keccak padding (pad10*1 with domain byte 0x01), as used by
    Ethereum; not the 0x06 of standardised SHA-3. *)
Definition pad (msg : list Z) : list Z :=
  let r := rate in
  let q := (r - (List.length msg mod r))%nat in
  match q with
  | 1%nat => msg ++ [0x81]
  | _ => msg ++ [0x01] ++ repeat 0 (q - 2) ++ [0x80]
  end.

Fixpoint absorb (fuel : nat) (st : list Z) (bs : list Z) : list Z :=
  match fuel with
  | O => st
  | S fuel' =>
      match bs with
      | [] => st
      | _ =>
          let blk := lanes_of_bytes 17 (firstn rate bs) in
          absorb fuel' (keccak_f (xor_into st blk)) (skipn rate bs)
      end
  end.

Definition bytes_of_lane (l : Z) : list Z :=
  map (fun i => Z.land (Z.shiftr l (8 * Z.of_nat i)) 255)
      [0; 1; 2; 3; 4; 5; 6; 7]%nat.

(** The 32-byte digest. The fuel bounds the number of blocks and is
    always sufficient: a padded message of [n] bytes has at most [n]
    blocks. *)
Definition keccak256 (msg : list Z) : list Z :=
  let p := pad msg in
  let st := absorb (List.length p) (repeat 0 25) p in
  flat_map bytes_of_lane (firstn 4 st).

End Keccak.

Definition hex_digit (n : Z) : ascii :=
  nth (Z.to_nat n) (list_ascii_of_string "0123456789abcdef") "0"%char.

Definition encode_hex (bs : list Z) : string :=
  string_of_list_ascii
    (flat_map (fun b => [hex_digit (Z.shiftr b 4); hex_digit (Z.land b 15)]) bs).

Definition bytes_of_text (s : string) : list Z :=
  map (fun c => Z.of_nat (nat_of_ascii c)) (list_ascii_of_string s).


(** ** Python exceptions *)

(** Only the class of an exception and its message ([str(e)]) are
    observed by the program. [ExternalError] stands for whatever an
    external collaborator raises (node errors, time-outs, signing
    errors, ...). *)
Inductive Exception : Type :=
  | ValueError (msg : string)
  | IndexError (msg : string)
  | ExternalError (kind : string) (msg : string).

Definition str (e : Exception) : string :=
  match e with
  | ValueError m | IndexError m | ExternalError _ m => m
  end.

(** The outcome of evaluating an expression: raised or returned. *)
Definition Result (A : Type) : Type := (Exception + A)%type.
Definition Raise {A} (e : Exception) : Result A := inl e.
Definition Ok {A} (a : A) : Result A := inr a.

(** ** [Web3.to_checksum_address] (eth_utils, EIP-55) *)

Definition is_hex_digit (c : ascii) : bool :=
  let n := nat_of_ascii c in
  ((48 <=? n) && (n <=? 57) || (65 <=? n) && (n <=? 70)
   || (97 <=? n) && (n <=? 102))%nat.

(** [str.lower] and [str.upper] on one ASCII character. *)
Definition lower (c : ascii) : ascii :=
  let n := nat_of_ascii c in
  if ((65 <=? n) && (n <=? 90))%nat then ascii_of_nat (n + 32) else c.

Definition upper (c : ascii) : ascii :=
  let n := nat_of_ascii c in
  if ((97 <=? n) && (n <=? 122))%nat then ascii_of_nat (n - 32) else c.

Definition remove_0x_prefix (s : string) : string :=
  match s with
  | String "0" (String "x" rest) => rest
  | String "0" (String "X" rest) => rest
  | _ => s
  end.

(** [to_normalized_address]: a text value is accepted when, after an
    optional [0x] prefix, it is exactly 40 hexadecimal digits; the result
    is lower-case with the prefix. (The message of the error is the
    library's; only its class matters here.) *)
Definition to_normalized_address (value : string) : Result string :=
  let body := list_ascii_of_string (remove_0x_prefix value) in
  if ((List.length body =? 40)%nat && forallb is_hex_digit body)%bool
  then Ok ("0x" +:+ string_of_list_ascii (map lower body))
  else Raise (ValueError ("Unknown format " +:+ value)).

Definition nibbles (bs : list Z) : list Z :=
  flat_map (fun b => [Z.shiftr b 4; Z.land b 15]) bs.

Fixpoint checksum_case (cs : list ascii) (hs : list Z) : list ascii :=
  match cs, hs with
  | c :: cs', h :: hs' =>
      (if 7 <? h then upper c else c) :: checksum_case cs' hs'
  | _, _ => []
  end.

Definition to_checksum_address (value : string) : Result string :=
  match to_normalized_address value with
  | inl e => Raise e
  | inr norm_address =>
      let body := remove_0x_prefix norm_address in
      let address_hash := nibbles (Keccak.keccak256 (bytes_of_text body)) in
      Ok ("0x" +:+ string_of_list_ascii
                     (checksum_case (list_ascii_of_string body) address_hash))
  end.

(** An address is in checksummed form when canonicalisation leaves it
    as it is (EIP-55's [is_checksum_address]). *)
Definition is_checksum_address (a : string) : Prop :=
  to_checksum_address a = Ok a.

Definition zero_address : string :=
  "0x0000000000000000000000000000000000000000".

(** ** Amounts: [Web3.to_wei] and [Web3.from_wei] *)

(** A finite [decimal.Decimal]: [mantissa] scaled by [10 ^ -scale]; a
    positive exponent is part of the mantissa. [Decimal("1")] is
    [{| mantissa := 1; scale := 0 |}], [Decimal("1.0")] is
    [{| mantissa := 10; scale := 1 |}]. *)
Record Decimal : Type := { mantissa : Z; scale : nat }.

Definition MIN_WEI : Z := 0.
Definition MAX_WEI : Z := 2 ^ 256 - 1.
Definition ether : Z := 10 ^ 18.

(** The number of decimal digits of a coefficient; [0] has none. *)
Fixpoint count_digits (fuel : nat) (c : Z) : nat :=
  match fuel with
  | O => O
  | S fuel => if c =? 0 then O else S (count_digits fuel (c / 10))
  end.

Definition digits (c : Z) : nat :=
  count_digits (S (Z.to_nat (Z.log2 (Z.abs c)))) (Z.abs c).

(** [ROUND_HALF_EVEN] of the quotient [a / b], for [0 <= a] and [0 < b]. *)
Definition half_even (a b : Z) : Z :=
  let q := a / b in
  let r := a mod b in
  if 2 * r <? b then q
  else if b <? 2 * r then q + 1
  else if Z.even q then q else q + 1.

(** What a multiplication of the [decimal] module does with its exact
    product [c * 10 ^ e] in a context of precision [prec] (rounding
    [ROUND_HALF_EVEN], the default): a coefficient of more than [prec]
    digits loses the digits in excess. *)
Definition round_to (prec : nat) (c e : Z) : Z * Z :=
  let n := digits c in
  if (n <=? prec)%nat then (c, e)
  else
    let excess := Z.of_nat (n - prec) in
    (Z.sgn c * half_even (Z.abs c) (10 ^ excess), e + excess).

(** [len(s) - s.index(".") - 1], the number of characters after the
    first point of [s]; [None] when ["." in s] is false. *)
Fixpoint after_point (s : string) : option nat :=
  match s with
  | EmptyString => None
  | String c rest =>
      if Ascii.eqb c "."%char then Some (String.length rest)
      else after_point rest
  end.

(** What holds of the three readings that [to_wei] makes of a number
    (below): of the text [s] and the two values [d] and [x] of a finite
    [int], [float], numeric [str] or [Decimal] well within the limits of
    the [decimal] module. The two values have the same sign; [d] has at
    most 999 digits, the precision at which [to_wei] multiplies; the
    scales and the length of the text are at most [10 ^ 5], so that no
    exponent comes near the least one of a context, [- 999999]. *)
Definition in_range (s : string) (d x : Decimal) : bool :=
  (Z.sgn (mantissa x) =? Z.sgn (mantissa d))
  && (digits (mantissa d) <=? 999)%nat
  && (Z.of_nat (scale d) <=? 100000)
  && (Z.of_nat (scale x) <=? 100000)
  && (Z.of_nat (String.length s) <=? 100000).

(** An argument of [to_wei], by the three readings that [to_wei] makes
    of it:
    - [s_number] is [str(number)];
    - [d_number] is [Decimal(str(number))] for a [float],
      [Decimal(number)] for an [int] or a [str], [number] itself for a
      [Decimal];
    - [exact] is [Decimal(number)]: for a [float] the exact value of the
      binary fraction, otherwise equal to [d_number].
    The float [1.0] has [s_number = "1.0"],
    [d_number = {| mantissa := 10; scale := 1 |}] and
    [exact = {| mantissa := 1; scale := 0 |}]; the float [0.1] has
    [d_number = {| mantissa := 1; scale := 1 |}] and the exact value
    [0.1000000000000000055511151231257827021181583404541015625]. *)
Record Number : Type := {
  s_number : string;
  d_number :> Decimal;
  exact : Decimal;
  number_ok : in_range s_number d_number exact = true
}.

(** [to_wei(number, 'ether')] of [eth_utils]. A number below one whose
    text has a point is read again from [number] itself, multiplied by
    [10 ** multiplier] at a precision of [multiplier] digits, the unit
    being divided by as much; the product with the unit is taken at a
    precision of 999 digits, refused outside [MIN_WEI, MAX_WEI], then cut
    to an integer. Values are kept as a coefficient [c] and an exponent
    [e], for [c * 10 ^ e]; the unit [10 ^ 18] by its exponent. *)
Definition to_wei (number : Number) : Result Z :=
  let d := d_number number in
  if mantissa d =? 0 then Ok 0
  else
    let scaled : Result (Z * Z * Z) :=
      match after_point (s_number number) with
      | Some multiplier =>
          if mantissa d <? 10 ^ Z.of_nat (scale d) then
            match multiplier with
            | O => Raise (ValueError "valid range for prec is [1, MAX_PREC]")
            | S _ =>
                let m := Z.of_nat multiplier in
                let x := exact number in
                Ok (round_to multiplier
                      (mantissa x) (m - Z.of_nat (scale x)), 18 - m)
            end
          else Ok (mantissa d, - Z.of_nat (scale d), 18)
      | None => Ok (mantissa d, - Z.of_nat (scale d), 18)
      end in
    match scaled with
    | inl e => Raise e
    | inr (c, e, unit_value) =>
        let (c, e) := round_to 999 c (e + unit_value) in
        let num := c * 10 ^ e in
        let den := 10 ^ (- e) in
        if 0 <=? e then
          if (num <? MIN_WEI) || (MAX_WEI <? num)
          then Raise (ValueError
                        "Resulting wei value must be between 1 and 2**256 - 1")
          else Ok num
        else
          if (c <? MIN_WEI * den) || (MAX_WEI * den <? c)
          then Raise (ValueError
                        "Resulting wei value must be between 1 and 2**256 - 1")
          else Ok (Z.quot c den)
    end.

(** A number that [to_wei] takes as it is printed: one without a point,
    or not below one (every [int], every [float] from [1.0] up). *)
Definition printed (number : Number) : Prop :=
  after_point (s_number number) = None
  \/ 10 ^ Z.of_nat (scale number) <= mantissa number.

(** [from_wei(number, 'ether')]: the exact quotient by 10^18. *)
Definition from_wei (number : Z) : Result Decimal :=
  if number =? 0 then Ok {| mantissa := 0; scale := 0 |}
  else if (number <? MIN_WEI) || (MAX_WEI <? number)
  then Raise (ValueError "value must be between 1 and 2**256 - 1")
  else Ok {| mantissa := number; scale := 18 |}.

(** ** The registry *)

Record DexEntry : Type := { router : string; name : string; weth : string }.

Definition SUPPORTED_DEXES : gmap string DexEntry :=
  <[ "uniswap_v2" :=
       {| router := "0x7a250d5630B4cF539739dF2C5dAcb4c659F2488D";
          name := "Uniswap V2";
          weth := "0xC02aaA39b223FE8D0A0e5C4F27eAD9083C756Cc2" |} ]>
  (<[ "sushiswap" :=
       {| router := "0xd9e1cE17f2641f24aE83637ab66a2cca9C378B9F";
          name := "SushiSwap";
          weth := "0xC02aaA39b223FE8D0A0e5C4F27eAD9083C756Cc2" |} ]>
  (<[ "pancakeswap" :=
       {| router := "0x10ED43C718714eb63d5aA57B78B54704E256024E";
          name := "PancakeSwap";
          weth := "0xbb4CdB9CBd36B01bD1cBaEBF2De08d9173bc095c" |} ]> ∅)).

(** ** Data handed to and received from the libraries *)

(** A call of a contract function with its arguments, before ABI
    encoding; [web3] encodes it into the [data] of the transaction. *)
Inductive ContractCall : Type :=
  | getAmountsOut (amountIn : Z) (path : list string)
  | swapExactETHForTokens
      (amountOutMin : Z) (path : list string) (to : string) (deadline : Z)
  | swapExactTokensForETH
      (amountIn amountOutMin : Z) (path : list string) (to : string)
      (deadline : Z)
  | approve (spender : string) (amount : Z).

(** The dictionary given to [build_transaction]; a key that the caller
    leaves out is [None]. *)
Record TxParams : Type := {
  from : string;
  value : option Z;
  gas : Z;
  gasPrice : Z;
  nonce : Z
}.

(** The dictionary returned by [build_transaction]. *)
Record Transaction : Type := {
  tx_to : string;
  tx_data : ContractCall;
  tx_from : string;
  tx_value : Z;
  tx_gas : Z;
  tx_gasPrice : Z;
  tx_nonce : Z
}.

Record SignedTransaction : Type := { rawTransaction : list Z }.

Record Block : Type := { timestamp : Z }.

(** [Account.from_key] yields an object of which the class reads only
    [address]. *)
Record LocalAccount : Type := { address : string }.

(** [Web3(Web3.HTTPProvider(url))]: a handle on one endpoint. *)
Record Web3 : Type := { HTTPProvider : string }.

(** ** The external collaborators *)

(** [World] is the state of whatever sits behind the endpoints; each
    request may change it and may raise. [Abi] is a parsed ABI document,
    [Receipt] a transaction receipt. *)
Class Externals (World Abi Receipt : Type) : Type := {
  (** [decouple.config(name)] *)
  config : string -> Result string;
  (** [Account.from_key(private_key)] *)
  from_key : string -> Result LocalAccount;
  (** [open(filename, 'r')] followed by [json.load] *)
  json_load : string -> Result Abi;
  (** [w3.eth.get_block(identifier)] *)
  get_block : Web3 -> string -> World -> Result Block * World;
  (** [w3.eth.gas_price] *)
  gas_price : Web3 -> World -> Result Z * World;
  (** [w3.eth.get_transaction_count(address)] *)
  get_transaction_count : Web3 -> string -> World -> Result Z * World;
  (** [contract.functions.f(args).call()] on the contract at an address *)
  call : Web3 -> string -> Abi -> ContractCall -> World -> Result (list Z) * World;
  (** [w3.eth.account.sign_transaction(transaction, private_key)] *)
  sign_transaction : Transaction -> string -> Result SignedTransaction;
  (** [w3.eth.send_raw_transaction(raw)] *)
  send_raw_transaction : Web3 -> list Z -> World -> Result (list Z) * World;
  (** [w3.eth.wait_for_transaction_receipt(tx_hash)] *)
  wait_for_transaction_receipt :
    Web3 -> list Z -> World -> Result Receipt * World
}.

Section Trader.

Context {World Abi Receipt : Type} {E : Externals World Abi Receipt}.

(** [w3.eth.contract(address=..., abi=...)] *)
Record Contract : Type := { contract_address : string; contract_abi : Abi }.

(** [contract.functions.f(args).build_transaction(params)]: [to] is the
    address of the contract, [data] the call, the keys of [params] are
    kept, and a missing [value] is filled with web3's default, 0. What
    web3 adds on its own account beyond these keys (the chain id) is not
    represented. *)
Definition build_transaction
    (c : Contract) (f : ContractCall) (params : TxParams) : Transaction :=
  {| tx_to := contract_address c;
     tx_data := f;
     tx_from := from params;
     tx_value := match value params with Some v => v | None => 0 end;
     tx_gas := gas params;
     tx_gasPrice := gasPrice params;
     tx_nonce := nonce params |}.

(** The attributes of a [MemeCoinTrader] object. *)
Record MemeCoinTrader : Type := {
  w3 : Web3;
  private_key : string;
  account : LocalAccount;
  current_dex : string;
  router_address : string;
  weth_address : string;
  router_abi : Abi;
  router_contract : Contract
}.

(** *** Construction *)

Definition bindR {A B} (r : Result A) (k : A -> Result B) : Result B :=
  match r with
  | inl e => inl e
  | inr a => k a
  end.

Notation "'let?' x ':=' r 'in' k" := (bindR r (fun x => k))
  (at level 10, x name, r at level 100, k at level 200).

Definition __init__ (dex network : string) : Result MemeCoinTrader :=
  let? w3 :=
    if String.eqb network "ethereum" then
      let? url := config "INFURA_URL" in Ok {| HTTPProvider := url |}
    else if String.eqb network "bsc" then
      let? url := config "BSC_NODE_URL" in Ok {| HTTPProvider := url |}
    else Raise (ValueError ("Unsupported network: " +:+ network)) in
  let? private_key := config "PRIVATE_KEY" in
  let? account := from_key private_key in
  match SUPPORTED_DEXES !! dex with
  | None => Raise (ValueError ("Unsupported DEX: " +:+ dex))
  | Some entry =>
      let? router_address := to_checksum_address (router entry) in
      let? weth_address := to_checksum_address (weth entry) in
      let abi_filename := dex +:+ "_router_abi.json" in
      let? router_abi := json_load abi_filename in
      Ok {| w3 := w3;
            private_key := private_key;
            account := account;
            current_dex := dex;
            router_address := router_address;
            weth_address := weth_address;
            router_abi := router_abi;
            router_contract :=
              {| contract_address := router_address;
                 contract_abi := router_abi |} |}
  end.

(** *** Method calls *)

(** One exchange with the node: the request and the answer it got. *)
Inductive Request : Type :=
  | GetBlock (node : Web3) (identifier : string) (answer : Result Block)
  | GasPrice (node : Web3) (answer : Result Z)
  | GetTransactionCount (node : Web3) (addr : string) (answer : Result Z)
  | Call (node : Web3) (addr : string) (f : ContractCall)
         (answer : Result (list Z))
  | SendRawTransaction (node : Web3) (raw : list Z) (answer : Result (list Z))
  | WaitForTransactionReceipt (node : Web3) (tx_hash : list Z)
                              (answer : Result Receipt).

(** What a method call can change: the attributes of the object, the
    world behind the endpoints, and the lines printed so far. [requests]
    records, oldest first, the exchanges with the node; nothing reads it,
    it is there to say which answers a call has used. *)
Record State : Type := {
  self : MemeCoinTrader;
  world : World;
  stdout : list string;
  requests : list Request
}.

(** A statement runs from a state and either raises or returns, leaving
    a state behind in both cases. *)
Definition M (A : Type) : Type := State -> Result A * State.

Definition ret {A} (a : A) : M A := fun st => (Ok a, st).

Definition bind {A B} (m : M A) (k : A -> M B) : M B :=
  fun st =>
    match m st with
    | (inl e, st') => (inl e, st')
    | (inr a, st') => k a st'
    end.

Notation "'let!' x ':=' m 'in' k" := (bind m (fun x => k))
  (at level 10, x name, m at level 100, k at level 200).

(** A computation of the process itself: no state is touched. *)
Definition eval {A} (r : Result A) : M A := fun st => (r, st).

(** Reading [self]. *)
Definition this : M MemeCoinTrader := fun st => (Ok (self st), st).

(** A request to the node: the world moves on and the exchange is
    recorded. *)
Definition request {A}
    (q : World -> Result A * World) (record : Result A -> Request) : M A :=
  fun st =>
    let (r, w) := q (world st) in
    (r, {| self := self st; world := w; stdout := stdout st;
           requests := requests st ++ [record r] |}).

Definition print (line : string) : M unit :=
  fun st =>
    (Ok tt,
     {| self := self st; world := world st; stdout := stdout st ++ [line];
        requests := requests st |}).

(** [try: body except Exception as e: handler(e)] *)
Definition try_except {A} (body : M A) (handler : Exception -> M A) : M A :=
  fun st =>
    match body st with
    | (inl e, st') => handler e st'
    | (inr a, st') => (inr a, st')
    end.

(** [amounts[i]] on a list *)
Definition getitem (l : list Z) (i : nat) : Result Z :=
  match nth_error l i with
  | Some x => Ok x
  | None => Raise (IndexError "list index out of range")
  end.

Definition get_token_price
    (token_address : string) (amount : Number) : M (option Decimal) :=
  let! token_address := eval (to_checksum_address token_address) in
  try_except
    (let! self := this in
     let! amount_in := eval (to_wei amount) in
     let! amounts :=
       let f := getAmountsOut amount_in [token_address; weth_address self] in
       request (call (w3 self)
                     (contract_address (router_contract self))
                     (contract_abi (router_contract self)) f)
               (Call (w3 self) (contract_address (router_contract self)) f) in
     let! quoted := eval (getitem amounts 1) in
     let! price := eval (from_wei quoted) in
     ret (Some price))
    (fun e =>
       let! _ := print ("Error getting price: " +:+ str e) in
       ret None).

(** The last three statements of [buy_token], [sell_token] and
    [approve_token]: sign, send, wait for the receipt. *)
Definition sign_and_send (transaction : Transaction) : M Receipt :=
  let! self := this in
  let! signed_txn := eval (sign_transaction transaction (private_key self)) in
  let! tx_hash :=
    request (send_raw_transaction (w3 self) (rawTransaction signed_txn))
            (SendRawTransaction (w3 self) (rawTransaction signed_txn)) in
  request (wait_for_transaction_receipt (w3 self) tx_hash)
          (WaitForTransactionReceipt (w3 self) tx_hash).

(** [buy_token] up to and including the assignment of [transaction]. *)
Definition buy_token_transaction
    (token_address : string) (amount_eth : Number) : M Transaction :=
  let! self := this in
  let! token_address := eval (to_checksum_address token_address) in
  let! block := request (get_block (w3 self) "latest") (GetBlock (w3 self) "latest") in
  let deadline := timestamp block + 300 in
  let! weth :=
    eval (to_checksum_address "0xC02aaA39b223FE8D0A0e5C4F27eAD9083C756Cc2") in
  let path := [weth; token_address] in
  let f := swapExactETHForTokens 0 path (address (account self)) deadline in
  let! value := eval (to_wei amount_eth) in
  let! gasPrice := request (gas_price (w3 self)) (GasPrice (w3 self)) in
  let! nonce :=
    request (get_transaction_count (w3 self) (address (account self)))
            (GetTransactionCount (w3 self) (address (account self))) in
  ret (build_transaction (router_contract self) f
         {| from := address (account self);
            value := Some value;
            gas := 250000;
            gasPrice := gasPrice;
            nonce := nonce |}).

Definition buy_token
    (token_address : string) (amount_eth : Number) : M Receipt :=
  let! transaction := buy_token_transaction token_address amount_eth in
  sign_and_send transaction.

(** [sell_token] up to and including the assignment of [transaction]. *)
Definition sell_token_transaction
    (token_address : string) (amount_tokens : Z) : M Transaction :=
  let! self := this in
  let! token_address := eval (to_checksum_address token_address) in
  let! block := request (get_block (w3 self) "latest") (GetBlock (w3 self) "latest") in
  let deadline := timestamp block + 300 in
  let! weth :=
    eval (to_checksum_address "0xC02aaA39b223FE8D0A0e5C4F27eAD9083C756Cc2") in
  let path := [token_address; weth] in
  let f :=
    swapExactTokensForETH amount_tokens 0 path (address (account self))
                          deadline in
  let! gasPrice := request (gas_price (w3 self)) (GasPrice (w3 self)) in
  let! nonce :=
    request (get_transaction_count (w3 self) (address (account self)))
            (GetTransactionCount (w3 self) (address (account self))) in
  ret (build_transaction (router_contract self) f
         {| from := address (account self);
            value := None;
            gas := 250000;
            gasPrice := gasPrice;
            nonce := nonce |}).

Definition sell_token
    (token_address : string) (amount_tokens : Z) : M Receipt :=
  let! transaction := sell_token_transaction token_address amount_tokens in
  sign_and_send transaction.

(** [approve_token] up to and including the assignment of
    [transaction]. *)
Definition approve_token_transaction (token_address : string) : M Transaction :=
  let! self := this in
  let! token_address := eval (to_checksum_address token_address) in
  let! erc20_abi := eval (json_load "erc20_abi.json") in
  let token_contract :=
    {| contract_address := token_address; contract_abi := erc20_abi |} in
  let f := approve (router_address self) (2 ^ 256 - 1) in
  let! gasPrice := request (gas_price (w3 self)) (GasPrice (w3 self)) in
  let! nonce :=
    request (get_transaction_count (w3 self) (address (account self)))
            (GetTransactionCount (w3 self) (address (account self))) in
  ret (build_transaction token_contract f
         {| from := address (account self);
            value := None;
            gas := 100000;
            gasPrice := gasPrice;
            nonce := nonce |}).

Definition approve_token (token_address : string) : M Receipt :=
  let! transaction := approve_token_transaction token_address in
  sign_and_send transaction.

(** *** Vocabulary for the statements *)

(** The three methods that build a transaction. *)
Inductive Build : Type :=
  | Buy (token_address : string) (amount_eth : Number)
  | Sell (token_address : string) (amount_tokens : Z)
  | Approve (token_address : string).

Definition transaction_of (b : Build) : M Transaction :=
  match b with
  | Buy token_address amount_eth =>
      buy_token_transaction token_address amount_eth
  | Sell token_address amount_tokens =>
      sell_token_transaction token_address amount_tokens
  | Approve token_address => approve_token_transaction token_address
  end.

Definition is_swap (b : Build) : bool :=
  match b with
  | Buy _ _ | Sell _ _ => true
  | Approve _ => false
  end.

(** The exchanges with the node made between two states. *)
Definition during (st st' : State) (made : list Request) : Prop :=
  requests st' = requests st ++ made.

(** A statement that leaves the attributes of the object as they were,
    whether it returns or raises. *)
Definition keeps_self {A} (m : M A) : Prop :=
  forall st, self (snd (m st)) = self st.

(** The four public methods, with their arguments. *)
Inductive Operation : Type :=
  | GetTokenPrice (token_address : string) (amount : Number)
  | BuyToken (token_address : string) (amount_eth : Number)
  | SellToken (token_address : string) (amount_tokens : Z)
  | ApproveToken (token_address : string).

(** The state a public method leaves behind, whether it returns or
    raises. *)
Definition state_after (op : Operation) (st : State) : State :=
  match op with
  | GetTokenPrice token_address amount =>
      snd (get_token_price token_address amount st)
  | BuyToken token_address amount_eth =>
      snd (buy_token token_address amount_eth st)
  | SellToken token_address amount_tokens =>
      snd (sell_token token_address amount_tokens st)
  | ApproveToken token_address => snd (approve_token token_address st)
  end.

(** The method behind each builder: build, sign, send, wait. *)
Definition perform (b : Build) : M Receipt :=
  match b with
  | Buy token_address amount_eth => buy_token token_address amount_eth
  | Sell token_address amount_tokens => sell_token token_address amount_tokens
  | Approve token_address => approve_token token_address
  end.

(** The token address a call is about. *)
Definition token_of (op : Operation) : string :=
  match op with
  | GetTokenPrice token_address _
  | BuyToken token_address _
  | SellToken token_address _
  | ApproveToken token_address => token_address
  end.

(** Calls made one after the other on the same object. *)
Definition state_after_all (ops : list Operation) (st : State) : State :=
  fold_left (fun st op => state_after op st) ops st.

(** The calls of a sequence that sign and send: all but the price
    queries. *)
Definition submits (op : Operation) : bool :=
  match op with
  | GetTokenPrice _ _ => false
  | _ => true
  end.

Fixpoint submissions (ops : list Operation) : nat :=
  match ops with
  | [] => 0
  | op :: rest => ((if submits op then 1 else 0) + submissions rest)%nat
  end.

(** The first statement of [__init__]: the endpoint for a network. *)
Definition endpoint (network : string) : Result Web3 :=
  if String.eqb network "ethereum" then
    let? url := config "INFURA_URL" in Ok {| HTTPProvider := url |}
  else if String.eqb network "bsc" then
    let? url := config "BSC_NODE_URL" in Ok {| HTTPProvider := url |}
  else Raise (ValueError ("Unsupported network: " +:+ network)).

End Trader.

Arguments MemeCoinTrader : clear implicits.
Arguments Contract : clear implicits.
Arguments Request : clear implicits.
Arguments State {World Abi Receipt}.

(** The address written into [buy_token] and [sell_token]. *)
Definition WETH : string := "0xC02aaA39b223FE8D0A0e5C4F27eAD9083C756Cc2".

(** Arguments of a router call, by name. *)
Definition path_of (f : ContractCall) : list string :=
  match f with
  | getAmountsOut _ path
  | swapExactETHForTokens _ path _ _
  | swapExactTokensForETH _ _ path _ _ => path
  | approve _ _ => []
  end.

Definition deadline_of (f : ContractCall) : option Z :=
  match f with
  | swapExactETHForTokens _ _ _ deadline
  | swapExactTokensForETH _ _ _ _ deadline => Some deadline
  | _ => None
  end.

Definition amountOutMin_of (f : ContractCall) : option Z :=
  match f with
  | swapExactETHForTokens amountOutMin _ _ _
  | swapExactTokensForETH _ amountOutMin _ _ _ => Some amountOutMin
  | _ => None
  end.

Definition amountIn_of (f : ContractCall) : option Z :=
  match f with
  | getAmountsOut amountIn _
  | swapExactTokensForETH amountIn _ _ _ _ => Some amountIn
  | _ => None
  end.

Definition recipient_of (f : ContractCall) : option string :=
  match f with
  | swapExactETHForTokens _ _ to _
  | swapExactTokensForETH _ _ _ to _ => Some to
  | _ => None
  end.

(** The raw transactions handed to the node in a list of exchanges. *)
Fixpoint sent {Receipt} (made : list (Request Receipt)) : list (list Z) :=
  match made with
  | [] => []
  | SendRawTransaction _ raw _ :: rest => raw :: sent rest
  | _ :: rest => sent rest
  end.

(** A statement during which at most [n] raw transactions are handed
    to the node, whether it returns or raises. *)
Definition sends_at_most {World Abi Receipt A}
    (n : nat) (m : @M World Abi Receipt A) : Prop :=
  forall st,
    exists made,
      requests (snd (m st)) = requests st ++ made
      /\ (length (sent made) <= n)%nat.

(** ** A stubbed node *)

(** A stand-in for the collaborators, as a test would set it up. The
    node keeps the raw transactions it was sent, newest first, and each
    of them moves the latest block 12 seconds on from [T]; it answers
    every request for the gas price with [P], for a transaction count
    with [n] (the same to every caller, as in a race), and every contract
    call with [quote]. *)
Module Stub.

Definition account_address : string :=
  "0x5aAeb6053F3E94C9b9A09f33669435E7Ef1BeAed".

Definition environment (name : string) : Result string :=
  if String.eqb name "INFURA_URL" then Ok "https://mainnet.example/v3/key"
  else if String.eqb name "BSC_NODE_URL" then Ok "https://bsc.example/"
  else if String.eqb name "PRIVATE_KEY" then Ok "0x01"
  else Raise (ExternalError "UndefinedValueError" (name +:+ " not found")).

(** A stand-in for the signature: the fields of the transaction that
    the statements look at, as numbers. *)
Definition sign (t : Transaction) (key : string) : Result SignedTransaction :=
  Ok {| rawTransaction := [tx_nonce t; tx_gas t; tx_gasPrice t; tx_value t] |}.

Definition node (T P n : Z) (quote : Result (list Z))
  : Externals (list (list Z)) unit (list Z) := {|
  config := environment;
  from_key := fun _ => Ok {| address := account_address |};
  json_load := fun _ => Ok tt;
  get_block :=
    fun _ _ w => (Ok {| timestamp := T + 12 * Z.of_nat (length w) |}, w);
  gas_price := fun _ w => (Ok P, w);
  get_transaction_count := fun _ _ w => (Ok n, w);
  call := fun _ _ _ _ w => (quote, w);
  sign_transaction := sign;
  send_raw_transaction := fun _ raw w => (Ok raw, raw :: w);
  wait_for_transaction_receipt := fun _ tx_hash w => (Ok tx_hash, w)
|}.

(** A node that answers, and one whose contract calls fail. *)
Definition steady : Externals (list (list Z)) unit (list Z) :=
  node 1700000000 30 5 (Ok [10 ^ 18; 2 * 10 ^ 15]).

Definition failing : Externals (list (list Z)) unit (list Z) :=
  node 1700000000 30 5
       (Raise (ExternalError "ContractLogicError" "execution reverted")).

(** The state right after a successful construction. *)
Definition fresh (trader : MemeCoinTrader unit)
  : @State (list (list Z)) unit (list Z) :=
  {| self := trader; world := []; stdout := []; requests := [] |}.

(** The objects that [__init__] builds (see [init_uniswap_v2] and
    [init_pancakeswap] below). *)
Definition trader_for (dex url router weth : string) : MemeCoinTrader unit :=
  {| w3 := {| HTTPProvider := url |};
     private_key := "0x01";
     account := {| address := account_address |};
     current_dex := dex;
     router_address := router;
     weth_address := weth;
     router_abi := tt;
     router_contract :=
       {| contract_address := router; contract_abi := tt |} |}.

Definition uniswap_v2 : MemeCoinTrader unit :=
  trader_for "uniswap_v2" "https://mainnet.example/v3/key"
             "0x7a250d5630B4cF539739dF2C5dAcb4c659F2488D"
             "0xC02aaA39b223FE8D0A0e5C4F27eAD9083C756Cc2".

Definition pancakeswap : MemeCoinTrader unit :=
  trader_for "pancakeswap" "https://bsc.example/"
             "0x10ED43C718714eb63d5aA57B78B54704E256024E"
             "0xbb4CdB9CBd36B01bD1cBaEBF2De08d9173bc095c".

Definition token : string := "0xdbf03b407c01e7cd3cbea99509d93f8dddc8c6fb".
Definition Token : string := "0xdbF03B407c01E7cD3CBea99509d93f8DDDC8C6FB".

(** The [int] [1], the [float] [1.0], and the [float] [1 / 30]. *)
Definition one : Number :=
  {| s_number := "1";
     d_number := {| mantissa := 1; scale := 0 |};
     exact := {| mantissa := 1; scale := 0 |};
     number_ok := eq_refl |}.
Definition one_point_zero : Number :=
  {| s_number := "1.0";
     d_number := {| mantissa := 10; scale := 1 |};
     exact := {| mantissa := 1; scale := 0 |};
     number_ok := eq_refl |}.
Definition a_thirtieth : Number :=
  {| s_number := "0.03333333333333333";
     d_number := {| mantissa := 3333333333333333; scale := 17 |};
     exact :=
       {| mantissa :=
            33333333333333332870740406406184774823486804962158203125;
          scale := 57 |};
     number_ok := eq_refl |}.

(** A session on Uniswap V2: [buy_token(token, 1.0)] is built, then
    run to its receipt, and [sell_token(token, 77)] is built after it. *)
Definition st0 : @State (list (list Z)) unit (list Z) := fresh uniswap_v2.

Definition bought : Transaction :=
  {| tx_to := "0x7a250d5630B4cF539739dF2C5dAcb4c659F2488D";
     tx_data :=
       swapExactETHForTokens 0 [WETH; Token] account_address 1700000300;
     tx_from := account_address;
     tx_value := 1000000000000000000;
     tx_gas := 250000;
     tx_gasPrice := 30;
     tx_nonce := 5 |}.

Definition st_built : @State (list (list Z)) unit (list Z) :=
  Eval vm_compute in
    snd (buy_token_transaction (E := steady) token one_point_zero st0).

(** [buy_token(token, 1 / 30)] as it is built in the same session. *)
Definition bought_a_thirtieth : Transaction :=
  {| tx_to := "0x7a250d5630B4cF539739dF2C5dAcb4c659F2488D";
     tx_data :=
       swapExactETHForTokens 0 [WETH; Token] account_address 1700000300;
     tx_from := account_address;
     tx_value := 33333333333333333;
     tx_gas := 250000;
     tx_gasPrice := 30;
     tx_nonce := 5 |}.

Definition st_sent : @State (list (list Z)) unit (list Z) :=
  Eval vm_compute in snd (buy_token (E := steady) token one_point_zero st0).

Definition sold : Transaction :=
  {| tx_to := "0x7a250d5630B4cF539739dF2C5dAcb4c659F2488D";
     tx_data :=
       swapExactTokensForETH 77 0 [Token; WETH] account_address 1700000312;
     tx_from := account_address;
     tx_value := 0;
     tx_gas := 250000;
     tx_gasPrice := 30;
     tx_nonce := 5 |}.

Definition st_sold : @State (list (list Z)) unit (list Z) :=
  Eval vm_compute in
    snd (sell_token_transaction (E := steady) token 77 st_sent).

Definition approved : Transaction :=
  {| tx_to := Token;
     tx_data :=
       approve "0x7a250d5630B4cF539739dF2C5dAcb4c659F2488D" (2 ^ 256 - 1);
     tx_from := account_address;
     tx_value := 0;
     tx_gas := 100000;
     tx_gasPrice := 30;
     tx_nonce := 5 |}.

Definition st_approved : @State (list (list Z)) unit (list Z) :=
  Eval vm_compute in snd (approve_token_transaction (E := steady) token st0).

(** A session on PancakeSwap: what [buy_token(token, 1.0)] and
    [sell_token(token, 77)] build right after construction. *)
Definition bought_on_pancakeswap : Transaction :=
  {| tx_to := "0x10ED43C718714eb63d5aA57B78B54704E256024E";
     tx_data :=
       swapExactETHForTokens 0 [WETH; Token] account_address 1700000300;
     tx_from := account_address;
     tx_value := 1000000000000000000;
     tx_gas := 250000;
     tx_gasPrice := 30;
     tx_nonce := 5 |}.

Definition sold_on_pancakeswap : Transaction :=
  {| tx_to := "0x10ED43C718714eb63d5aA57B78B54704E256024E";
     tx_data :=
       swapExactTokensForETH 77 0 [Token; WETH] account_address 1700000300;
     tx_from := account_address;
     tx_value := 0;
     tx_gas := 250000;
     tx_gasPrice := 30;
     tx_nonce := 5 |}.

Definition st_built_on_pancakeswap : @State (list (list Z)) unit (list Z) :=
  Eval vm_compute in
    snd (buy_token_transaction (E := steady) token one_point_zero
                               (fresh pancakeswap)).

(** The receipt of the [buy_token] above: this node answers a raw
    transaction with itself as hash, and a hash with itself as receipt. *)
Definition receipt_of_buy : list Z := [5; 250000; 30; 1000000000000000000].

(** A node like [steady] that refuses every raw transaction. *)
Definition refusing : Externals (list (list Z)) unit (list Z) := {|
  config := environment;
  from_key := fun _ => Ok {| address := account_address |};
  json_load := fun _ => Ok tt;
  get_block :=
    fun _ _ w =>
      (Ok {| timestamp := 1700000000 + 12 * Z.of_nat (length w) |}, w);
  gas_price := fun _ w => (Ok 30, w);
  get_transaction_count := fun _ _ w => (Ok 5, w);
  call := fun _ _ _ _ w => (Ok [10 ^ 18; 2 * 10 ^ 15], w);
  sign_transaction := sign;
  send_raw_transaction :=
    fun _ raw w => (Raise (ExternalError "ValueError" "nonce too low"), w);
  wait_for_transaction_receipt := fun _ tx_hash w => (Ok tx_hash, w)
|}.

(** A node whose router answers with a single amount. *)
Definition terse : Externals (list (list Z)) unit (list Z) :=
  node 1700000000 30 5 (Ok [10 ^ 18]).

(** The [int] [-1]. *)
Definition minus_one : Number :=
  {| s_number := "-1";
     d_number := {| mantissa := -1; scale := 0 |};
     exact := {| mantissa := -1; scale := 0 |};
     number_ok := eq_refl |}.

Definition st_quoted : @State (list (list Z)) unit (list Z) :=
  Eval vm_compute in snd (get_token_price (E := steady) token one st0).

End Stub.

(** * Facts *)

Arguments to_checksum_address : simpl never.
Arguments to_wei : simpl never.
Arguments from_wei : simpl never.

(** ** Addresses *)

(** The digest of the empty message and the test vectors of EIP-55. *)
Example keccak256_empty :
  encode_hex (Keccak.keccak256 [])
  = "c5d2460186f7233c927e7db2dcc703c0e500b653ca82273b7bfad8045d85a470".
Proof. vm_compute. reflexivity. Qed.

Example eip55_vectors :
  to_checksum_address "0x5aaeb6053f3e94c9b9a09f33669435e7ef1beaed"
  = Ok "0x5aAeb6053F3E94C9b9A09f33669435E7Ef1BeAed"
  /\ to_checksum_address "0XFB6916095CA1DF60BB79CE92CE3EA74C37C5D359"
     = Ok "0xfB6916095ca1df60bB79Ce92cE3Ea74c37c5d359"
  /\ to_checksum_address "dbf03b407c01e7cd3cbea99509d93f8dddc8c6fb"
     = Ok "0xdbF03B407c01E7cD3CBea99509d93f8DDDC8C6FB"
  /\ to_checksum_address "0xD1220A0cf47c7B9Be7A2E6BA89F429762e7b9aDb"
     = Ok "0xD1220A0cf47c7B9Be7A2E6BA89F429762e7b9aDb".
Proof. repeat split; vm_compute; reflexivity. Qed.

(** [to_wei] on the [float]s [1.0], [0.5], [1 / 30], [2 / 30] and
    [0.012345678901234567], on the [str] ["123456.7E-10"], on the [int]s
    [-1] and [2 ** 256], and on the [str] ["-5."]. *)
Example to_wei_examples :
  to_wei Stub.one_point_zero = Ok (10 ^ 18)
  /\ to_wei {| s_number := "0.5";
               d_number := {| mantissa := 5; scale := 1 |};
               exact := {| mantissa := 5; scale := 1 |};
               number_ok := eq_refl |}
     = Ok (5 * 10 ^ 17)
  /\ to_wei Stub.a_thirtieth = Ok 33333333333333333
  /\ to_wei {| s_number := "0.06666666666666667";
               d_number := {| mantissa := 6666666666666667; scale := 17 |};
               exact :=
                 {| mantissa :=
                      6666666666666666574148081281236954964697360992431640625;
                    scale := 56 |};
               number_ok := eq_refl |}
     = Ok 66666666666666666
  /\ to_wei {| s_number := "0.012345678901234567";
               d_number := {| mantissa := 12345678901234567; scale := 18 |};
               exact :=
                 {| mantissa :=
                      1234567890123456669615453762389734038151800632476806640625;
                    scale := 59 |};
               number_ok := eq_refl |}
     = Ok 12345678901234566
  /\ to_wei {| s_number := "123456.7E-10";
               d_number := {| mantissa := 1234567; scale := 11 |};
               exact := {| mantissa := 1234567; scale := 11 |};
               number_ok := eq_refl |}
     = Ok 12346000000000
  /\ to_wei Stub.minus_one
     = Raise (ValueError
                "Resulting wei value must be between 1 and 2**256 - 1")
  /\ to_wei {| s_number :=
                 "115792089237316195423570985008687907853269984665640564039457584007913129639936";
               d_number := {| mantissa := 2 ^ 256; scale := 0 |};
               exact := {| mantissa := 2 ^ 256; scale := 0 |};
               number_ok := eq_refl |}
     = Raise (ValueError
                "Resulting wei value must be between 1 and 2**256 - 1")
  /\ to_wei {| s_number := "-5.";
               d_number := {| mantissa := -5; scale := 0 |};
               exact := {| mantissa := -5; scale := 0 |};
               number_ok := eq_refl |}
     = Raise (ValueError "valid range for prec is [1, MAX_PREC]").
Proof. repeat split; vm_compute; reflexivity. Qed.

Lemma WETH_checksummed : to_checksum_address WETH = Ok WETH.
Proof. vm_compute. reflexivity. Qed.

Lemma registry_checksummed :
  map_Forall
    (fun _ entry =>
       is_checksum_address (router entry) /\ is_checksum_address (weth entry)
       /\ router entry <> zero_address /\ weth entry <> zero_address)
    SUPPORTED_DEXES.
Proof.
  unfold SUPPORTED_DEXES.
  repeat (apply map_Forall_insert_2; [ | ]);
    try apply map_Forall_empty;
    (split; [vm_compute; reflexivity |
     split; [vm_compute; reflexivity | split; discriminate]]).
Qed.

(** *** The checksummed form is canonical *)

Lemma is_hex_digit_upper c :
  is_hex_digit c = true -> is_hex_digit (upper c) = true.
Proof.
  destruct c as [[] [] [] [] [] [] [] []]; vm_compute; congruence.
Qed.

Lemma is_hex_digit_lower c :
  is_hex_digit c = true -> is_hex_digit (lower c) = true.
Proof.
  destruct c as [[] [] [] [] [] [] [] []]; vm_compute; congruence.
Qed.

Lemma lower_lower c : lower (lower c) = lower c.
Proof. destruct c as [[] [] [] [] [] [] [] []]; vm_compute; reflexivity. Qed.

Lemma lower_upper_lower c : lower (upper (lower c)) = lower c.
Proof. destruct c as [[] [] [] [] [] [] [] []]; vm_compute; reflexivity. Qed.

Lemma checksum_case_length cs hs :
  (length cs <= length hs)%nat -> length (checksum_case cs hs) = length cs.
Proof.
  revert hs. induction cs as [| c cs IH]; intros [| h hs] Hlen;
    cbn [checksum_case length] in *; try lia.
  rewrite IH; [reflexivity | lia].
Qed.

Lemma checksum_case_hex cs hs :
  forallb is_hex_digit cs = true ->
  forallb is_hex_digit (checksum_case cs hs) = true.
Proof.
  revert hs. induction cs as [| c cs IH]; intros [| h hs] Hhex;
    cbn [checksum_case forallb] in *; try reflexivity.
  apply andb_prop in Hhex. destruct Hhex as [Hc Hcs].
  rewrite (IH hs Hcs), Bool.andb_true_r.
  destruct (7 <? h); [apply is_hex_digit_upper | ]; exact Hc.
Qed.

(** Only the case of the letters is touched. *)
Lemma checksum_case_lower cs hs :
  (length cs <= length hs)%nat ->
  map lower (checksum_case (map lower cs) hs) = map lower cs.
Proof.
  revert hs. induction cs as [| c cs IH]; intros [| h hs] Hlen;
    cbn [checksum_case length map] in *; try lia; try reflexivity.
  rewrite IH by lia. f_equal.
  destruct (7 <? h); [apply lower_upper_lower | apply lower_lower].
Qed.

Lemma build_length f : length (Keccak.build f) = 25%nat.
Proof. reflexivity. Qed.

Lemma keccak_round_length a rc : length (Keccak.keccak_round a rc) = 25%nat.
Proof.
  unfold Keccak.keccak_round, Keccak.chi.
  remember (Keccak.build _) as b eqn:Hb.
  assert (Hlen : length b = 25%nat) by (subst b; apply build_length).
  destruct b; [discriminate | exact Hlen].
Qed.

Lemma keccak_f_length a : length (Keccak.keccak_f a) = 25%nat.
Proof.
  unfold Keccak.keccak_f, Keccak.round_constants.
  cbn [fold_left]. apply keccak_round_length.
Qed.

Lemma absorb_length fuel st bs :
  length st = 25%nat -> length (Keccak.absorb fuel st bs) = 25%nat.
Proof.
  revert st bs. induction fuel as [| fuel IH]; intros st bs Hst;
    cbn [Keccak.absorb]; [exact Hst | ].
  destruct bs; [exact Hst | ]. apply IH, keccak_f_length.
Qed.

(** The digest has 32 bytes, whatever the message. *)
Lemma keccak256_length msg : length (Keccak.keccak256 msg) = 32%nat.
Proof.
  unfold Keccak.keccak256.
  remember (Keccak.absorb _ _ _) as st eqn:Hst.
  assert (Hlen : length st = 25%nat)
    by (subst st; apply absorb_length; reflexivity).
  clear Hst.
  do 4 (destruct st as [| ? st]; [discriminate | ]). reflexivity.
Qed.

Lemma nibbles_length bs : length (nibbles bs) = (2 * length bs)%nat.
Proof.
  induction bs as [| b bs IH]; [reflexivity | ].
  unfold nibbles in *. cbn [flat_map length app]. rewrite IH. lia.
Qed.

Lemma remove_add_0x_prefix s : remove_0x_prefix ("0x" +:+ s) = s.
Proof. reflexivity. Qed.

Lemma to_checksum_address_returns value r :
  to_checksum_address value = Ok r ->
  exists body,
    body = list_ascii_of_string (remove_0x_prefix value)
    /\ length body = 40%nat
    /\ forallb is_hex_digit body = true
    /\ r = "0x" +:+ string_of_list_ascii
                     (checksum_case (map lower body)
                        (nibbles (Keccak.keccak256
                                    (bytes_of_text
                                       (string_of_list_ascii
                                          (map lower body)))))).
Proof.
  unfold to_checksum_address, to_normalized_address.
  set (body := list_ascii_of_string (remove_0x_prefix value)).
  destruct (_ && _)%bool eqn:Hok; [ | discriminate].
  apply andb_prop in Hok. destruct Hok as [Hlen Hhex].
  apply Nat.eqb_eq in Hlen.
  unfold Ok. rewrite !remove_add_0x_prefix.
  rewrite list_ascii_of_string_of_list_ascii.
  intros H. injection H as <-. exists body. repeat split; assumption.
Qed.

(** Canonicalising a canonical address gives it back. *)
Lemma to_checksum_address_idempotent value r :
  to_checksum_address value = Ok r -> to_checksum_address r = Ok r.
Proof.
  intros H. apply to_checksum_address_returns in H.
  destruct H as (body & _ & Hlen & Hhex & ->).
  set (low := map lower body).
  set (h := nibbles (Keccak.keccak256 (bytes_of_text (string_of_list_ascii low)))).
  assert (Hlenh : length h = 64%nat)
    by (subst h; rewrite nibbles_length, keccak256_length; reflexivity).
  assert (Hlen' : length low = 40%nat)
    by (subst low; rewrite length_map; exact Hlen).
  assert (Hh : (length low <= length h)%nat) by lia.
  assert (Hlow : map lower (checksum_case low h) = low)
    by (subst low; apply checksum_case_lower; lia).
  unfold to_checksum_address, to_normalized_address, Ok.
  rewrite remove_add_0x_prefix.
  rewrite list_ascii_of_string_of_list_ascii.
  rewrite checksum_case_length by exact Hh.
  rewrite Hlen', Nat.eqb_refl.
  rewrite checksum_case_hex.
  - cbn [andb]. rewrite remove_add_0x_prefix, Hlow.
    rewrite list_ascii_of_string_of_list_ascii. reflexivity.
  - subst low. clear -Hhex. induction body as [| c body IH]; [reflexivity | ].
    cbn [map forallb] in *. apply andb_prop in Hhex. destruct Hhex as [Hc Hb].
    rewrite (is_hex_digit_lower _ Hc), (IH Hb). reflexivity.
Qed.

(** The only failure of the canonicalisation is a [ValueError]. *)
Lemma to_checksum_address_raises value e :
  to_checksum_address value = Raise e -> exists msg, e = ValueError msg.
Proof.
  unfold to_checksum_address, to_normalized_address.
  destruct (_ && _)%bool; [discriminate | ].
  unfold Raise. intros H. injection H as <-. eauto.
Qed.

Section Facts.

Context {World Abi Receipt : Type} {E : Externals World Abi Receipt}.

#[local] Abbreviation State := (@State World Abi Receipt).
#[local] Abbreviation M := (@M World Abi Receipt).

(** ** Running statements *)

Lemma bind_returns {A B} (m : M A) (k : A -> M B) st b st' :
  bind m k st = (inr b, st') ->
  exists a st1, m st = (inr a, st1) /\ k a st1 = (inr b, st').
Proof.
  unfold bind. destruct (m st) as [[e | a] st1]; [discriminate | eauto].
Qed.

Lemma eval_returns {A} (r : Result A) (st : State) a st' :
  eval r st = (inr a, st') -> r = inr a /\ st' = st.
Proof. unfold eval. intros H; inversion H; auto. Qed.

Lemma this_returns (st : State) s st' :
  this st = (inr s, st') -> s = self st /\ st' = st.
Proof. unfold this. intros H; inversion H; auto. Qed.

Lemma ret_returns {A} (x : A) (st : State) a st' :
  ret x st = (inr a, st') -> a = x /\ st' = st.
Proof. unfold ret. intros H; inversion H; auto. Qed.

Lemma request_returns {A} (q : World -> Result A * World)
    (record : Result A -> Request Receipt) (st : State) a st' :
  request q record st = (inr a, st') ->
  exists w,
    q (world st) = (inr a, w)
    /\ st' = {| self := self st; world := w; stdout := stdout st;
                requests := requests st ++ [record (inr a)] |}.
Proof.
  unfold request. destruct (q (world st)) as [r w].
  intros H; inversion H; subst. eauto.
Qed.

(** Peels a run that returned, statement by statement. *)
Ltac peel H :=
  repeat match type of H with
  | bind _ _ _ = (inr _, _) =>
      let a := fresh "a" in let st1 := fresh "st" in
      let H1 := fresh "Hrun" in
      apply bind_returns in H; destruct H as (a & st1 & H1 & H);
      first [ apply this_returns in H1; destruct H1 as [-> ->]
            | apply eval_returns in H1; destruct H1 as [H1 ->]
            | apply request_returns in H1;
              let w := fresh "w" in destruct H1 as (w & H1 & ->) ];
      cbn [self world stdout requests] in H
  | ret _ _ = (inr _, _) =>
      apply ret_returns in H; destruct H as [-> ->]
  end.

(** ** What the three builders produce *)

Lemma buy_token_transaction_returns token amount (st : State) tx st' :
  buy_token_transaction token amount st = (inr tx, st') ->
  exists tok blk v p n wa wb wc,
    let node := w3 (self st) in
    let me := address (account (self st)) in
    to_checksum_address token = Ok tok
    /\ get_block node "latest" (world st) = (Ok blk, wa)
    /\ to_wei amount = Ok v
    /\ gas_price node wa = (Ok p, wb)
    /\ get_transaction_count node me wb = (Ok n, wc)
    /\ tx = {| tx_to := contract_address (router_contract (self st));
               tx_data :=
                 swapExactETHForTokens 0 [WETH; tok] me (timestamp blk + 300);
               tx_from := me;
               tx_value := v;
               tx_gas := 250000;
               tx_gasPrice := p;
               tx_nonce := n |}
    /\ st' = {| self := self st; world := wc; stdout := stdout st;
                requests :=
                  requests st ++
                    [GetBlock node "latest" (Ok blk); GasPrice node (Ok p);
                     GetTransactionCount node me (Ok n)] |}.
Proof.
  unfold buy_token_transaction. intros H.
  fold WETH in H. rewrite WETH_checksummed in H.
  peel H.
  repeat match goal with Hw : Ok _ = inr _ |- _ => injection Hw as <- end.
  do 8 eexists. cbn zeta.
  rewrite <- !app_assoc. cbn [app].
  repeat split; try eassumption; reflexivity.
Qed.

Lemma sell_token_transaction_returns token amount (st : State) tx st' :
  sell_token_transaction token amount st = (inr tx, st') ->
  exists tok blk p n wa wb wc,
    let node := w3 (self st) in
    let me := address (account (self st)) in
    to_checksum_address token = Ok tok
    /\ get_block node "latest" (world st) = (Ok blk, wa)
    /\ gas_price node wa = (Ok p, wb)
    /\ get_transaction_count node me wb = (Ok n, wc)
    /\ tx = {| tx_to := contract_address (router_contract (self st));
               tx_data :=
                 swapExactTokensForETH amount 0 [tok; WETH] me
                                       (timestamp blk + 300);
               tx_from := me;
               tx_value := 0;
               tx_gas := 250000;
               tx_gasPrice := p;
               tx_nonce := n |}
    /\ st' = {| self := self st; world := wc; stdout := stdout st;
                requests :=
                  requests st ++
                    [GetBlock node "latest" (Ok blk); GasPrice node (Ok p);
                     GetTransactionCount node me (Ok n)] |}.
Proof.
  unfold sell_token_transaction. intros H.
  fold WETH in H. rewrite WETH_checksummed in H.
  peel H.
  repeat match goal with Hw : Ok _ = inr _ |- _ => injection Hw as <- end.
  do 7 eexists. cbn zeta.
  rewrite <- !app_assoc. cbn [app].
  repeat split; try eassumption; reflexivity.
Qed.

Lemma approve_token_transaction_returns token (st : State) tx st' :
  approve_token_transaction token st = (inr tx, st') ->
  exists tok abi p n wa wb,
    let node := w3 (self st) in
    let me := address (account (self st)) in
    to_checksum_address token = Ok tok
    /\ json_load "erc20_abi.json" = Ok abi
    /\ gas_price node (world st) = (Ok p, wa)
    /\ get_transaction_count node me wa = (Ok n, wb)
    /\ tx = {| tx_to := tok;
               tx_data := approve (router_address (self st)) (2 ^ 256 - 1);
               tx_from := me;
               tx_value := 0;
               tx_gas := 100000;
               tx_gasPrice := p;
               tx_nonce := n |}
    /\ st' = {| self := self st; world := wb; stdout := stdout st;
                requests :=
                  requests st ++
                    [GasPrice node (Ok p);
                     GetTransactionCount node me (Ok n)] |}.
Proof.
  unfold approve_token_transaction. intros H.
  peel H.
  do 6 eexists. cbn zeta.
  rewrite <- !app_assoc. cbn [app].
  repeat split; try eassumption; reflexivity.
Qed.

(** Conversely, a builder returns as soon as the address is one and the
    node answers (and, when buying, the amount converts). *)
Lemma buy_token_transaction_runs token amount (st : State) tok blk v p n wa wb wc :
  to_checksum_address token = Ok tok ->
  get_block (w3 (self st)) "latest" (world st) = (Ok blk, wa) ->
  to_wei amount = Ok v ->
  gas_price (w3 (self st)) wa = (Ok p, wb) ->
  get_transaction_count (w3 (self st)) (address (account (self st))) wb
  = (Ok n, wc) ->
  exists tx st', buy_token_transaction token amount st = (Ok tx, st').
Proof.
  intros Htok Hblk Hv Hp Hn.
  unfold buy_token_transaction, bind, this, eval, request, ret.
  fold WETH.
  repeat (cbn [Ok self world stdout requests];
          first [ rewrite Htok | rewrite WETH_checksummed | rewrite Hblk
                | rewrite Hv | rewrite Hp | rewrite Hn ]).
  eauto.
Qed.

Lemma sell_token_transaction_runs token amount (st : State) tok blk p n wa wb wc :
  to_checksum_address token = Ok tok ->
  get_block (w3 (self st)) "latest" (world st) = (Ok blk, wa) ->
  gas_price (w3 (self st)) wa = (Ok p, wb) ->
  get_transaction_count (w3 (self st)) (address (account (self st))) wb
  = (Ok n, wc) ->
  exists tx st', sell_token_transaction token amount st = (Ok tx, st').
Proof.
  intros Htok Hblk Hp Hn.
  unfold sell_token_transaction, bind, this, eval, request, ret.
  fold WETH.
  repeat (cbn [Ok self world stdout requests];
          first [ rewrite Htok | rewrite WETH_checksummed | rewrite Hblk
                | rewrite Hp | rewrite Hn ]).
  eauto.
Qed.

Lemma approve_token_transaction_runs token (st : State) tok abi p n wa wb :
  to_checksum_address token = Ok tok ->
  json_load "erc20_abi.json" = Ok abi ->
  gas_price (w3 (self st)) (world st) = (Ok p, wa) ->
  get_transaction_count (w3 (self st)) (address (account (self st))) wa
  = (Ok n, wb) ->
  exists tx st', approve_token_transaction token st = (Ok tx, st').
Proof.
  intros Htok Habi Hp Hn.
  unfold approve_token_transaction, bind, this, eval, request, ret.
  repeat (cbn [Ok self world stdout requests];
          first [ rewrite Htok | rewrite Habi | rewrite Hp | rewrite Hn ]).
  eauto.
Qed.


(** A swap builder asks for the latest block first, then for the gas
    price and for the transaction count. *)
Lemma swap_requests b (st : State) tx st' :
  is_swap b = true ->
  transaction_of b st = (inr tx, st') ->
  exists blk,
    during st st'
      [GetBlock (w3 (self st)) "latest" (Ok blk);
       GasPrice (w3 (self st)) (Ok (tx_gasPrice tx));
       GetTransactionCount (w3 (self st)) (address (account (self st)))
                           (Ok (tx_nonce tx))]
    /\ deadline_of (tx_data tx) = Some (timestamp blk + 300)
    /\ amountOutMin_of (tx_data tx) = Some 0
    /\ tx_gas tx = 250000.
Proof.
  destruct b as [token amount | token amount | token]; cbn [is_swap transaction_of];
    intros Hs H; try discriminate.
  - apply buy_token_transaction_returns in H.
    destruct H as (tok & blk & v & p & n & wa & wb & wc & H).
    cbn zeta in H. destruct H as (_ & _ & _ & _ & _ & -> & ->).
    exists blk. repeat split.
  - apply sell_token_transaction_returns in H.
    destruct H as (tok & blk & p & n & wa & wb & wc & H).
    cbn zeta in H. destruct H as (_ & _ & _ & _ & -> & ->).
    exists blk. repeat split.
Qed.

(** The path of a swap has two elements; [WETH] is the first when
    buying and the last when selling, whatever the session. *)
Lemma swap_path_has_two_hops b (st : State) tx st' :
  is_swap b = true ->
  transaction_of b st = (inr tx, st') ->
  length (path_of (tx_data tx)) = 2%nat
  /\ match b with
     | Buy _ _ => head (path_of (tx_data tx)) = Some WETH
     | _ => last (path_of (tx_data tx)) = Some WETH
     end.
Proof.
  destruct b as [token amount | token amount | token]; cbn [is_swap transaction_of];
    intros Hs H; try discriminate.
  - apply buy_token_transaction_returns in H.
    destruct H as (tok & blk & v & p & n & wa & wb & wc & H).
    cbn zeta in H. destruct H as (_ & _ & _ & _ & _ & -> & _).
    split; reflexivity.
  - apply sell_token_transaction_returns in H.
    destruct H as (tok & blk & p & n & wa & wb & wc & H).
    cbn zeta in H. destruct H as (_ & _ & _ & _ & -> & _).
    split; reflexivity.
Qed.

(** ** The built transactions *)


(** C3. Every swap built by [buy_token] or [sell_token] passes 0 as the
    minimum output to the router, whatever the token, the amount and the
    direction. *)
Theorem swap_minimum_output_is_zero b (st : State) tx st' :
  is_swap b = true ->
  transaction_of b st = (inr tx, st') ->
  amountOutMin_of (tx_data tx) = Some 0.
Proof.
  intros Hs H.
  destruct (swap_requests _ _ _ _ Hs H) as (blk & _ & _ & Hmin & _).
  exact Hmin.
Qed.

(** C4. The approval built by [approve_token] names the router of the
    session as spender and 2^256 - 1, the largest unsigned 256-bit value,
    as amount, for every token, and has gas limit 100000. *)
Theorem approval_is_unlimited_for_router token (st : State) tx st' :
  approve_token_transaction token st = (inr tx, st') ->
  tx_data tx = approve (router_address (self st)) (2 ^ 256 - 1)
  /\ (forall x, 0 <= x < 2 ^ 256 -> x <= 2 ^ 256 - 1)
  /\ tx_gas tx = 100000.
Proof.
  intros H. apply approve_token_transaction_returns in H.
  destruct H as (tok & abi & p & n & wa & wb & H).
  cbn zeta in H. destruct H as (_ & _ & _ & _ & -> & _).
  cbn [tx_data tx_gas]. repeat split; intros; lia.
Qed.

(** C5. Every swap built by [buy_token] or [sell_token] has gas limit
    250000, whatever the direction, the token, the amount and the state
    of the chain. *)
Theorem swap_gas_is_250000 b (st : State) tx st' :
  is_swap b = true ->
  transaction_of b st = (inr tx, st') ->
  tx_gas tx = 250000.
Proof.
  intros Hs H.
  destruct (swap_requests _ _ _ _ Hs H) as (blk & _ & _ & _ & Hgas).
  exact Hgas.
Qed.

(** C6. The value of a swap built by [buy_token] is the requested amount
    of native currency in smallest units; the value of a swap built by
    [sell_token] is zero and the token amount is the input amount of the
    router call. *)
Theorem swap_value_by_direction b (st : State) tx st' :
  transaction_of b st = (inr tx, st') ->
  match b with
  | Buy _ amount_eth => to_wei amount_eth = Ok (tx_value tx)
  | Sell _ amount_tokens =>
      tx_value tx = 0 /\ amountIn_of (tx_data tx) = Some amount_tokens
  | Approve _ => True
  end.
Proof.
  destruct b as [token amount | token amount | token]; cbn [transaction_of];
    intros H; [ | | exact I].
  - apply buy_token_transaction_returns in H.
    destruct H as (tok & blk & v & p & n & wa & wb & wc & H).
    cbn zeta in H. destruct H as (_ & _ & Hv & _ & _ & -> & _). exact Hv.
  - apply sell_token_transaction_returns in H.
    destruct H as (tok & blk & p & n & wa & wb & wc & H).
    cbn zeta in H. destruct H as (_ & _ & _ & _ & -> & _). split; reflexivity.
Qed.


(** ** The price query *)

(** C7, as the code has it. For a token address that
    [to_checksum_address] accepts, [get_token_price] never raises; when
    the contract call fails it prints the failure and returns [None]; when
    the call answers it returns the second quoted amount, converted from
    smallest units. *)
Theorem get_token_price_recovers token tok amount (st : State) :
  to_checksum_address token = Ok tok ->
  let node := w3 (self st) in
  let router := router_contract (self st) in
  let f v := getAmountsOut v [tok; weth_address (self st)] in
  let ask v :=
    call node (contract_address router) (contract_abi router) (f v)
         (world st) in
  (exists r st', get_token_price token amount st = (Ok r, st'))
  /\ (forall v e w,
        to_wei amount = Ok v ->
        ask v = (Raise e, w) ->
        get_token_price token amount st =
          (Ok None,
           {| self := self st; world := w;
              stdout := stdout st ++ ["Error getting price: " +:+ str e];
              requests :=
                requests st ++
                  [Call node (contract_address router) (f v) (Raise e)] |}))
  /\ (forall v amounts w quoted price,
        to_wei amount = Ok v ->
        ask v = (Ok amounts, w) ->
        nth_error amounts 1 = Some quoted ->
        from_wei quoted = Ok price ->
        get_token_price token amount st =
          (Ok (Some price),
           {| self := self st; world := w; stdout := stdout st;
              requests :=
                requests st ++
                  [Call node (contract_address router) (f v)
                        (Ok amounts)] |})).
Proof.
  intros Htok. cbn zeta.
  unfold get_token_price, try_except, bind, eval, this, request, print, ret.
  rewrite Htok. unfold Ok, Raise. cbv beta iota. repeat split.
  - destruct (to_wei amount) as [e | v]; [eauto | ].
    match goal with
    | |- context [call ?n ?a ?i ?c ?w0] =>
        destruct (call n a i c w0) as [[e | amounts] w]; [eauto | ]
    end.
    cbn [self world stdout requests Ok Raise].
    destruct (getitem amounts 1) as [e | quoted]; [eauto | ].
    destruct (from_wei quoted) as [e | price]; eauto.
  - intros v e w -> Hask. rewrite Hask. reflexivity.
  - intros v amounts w quoted price -> Hask Hnth Hprice.
    rewrite Hask. unfold getitem. rewrite Hnth.
    cbn [self world stdout requests Ok Raise]. rewrite Hprice. reflexivity.
Qed.

(** ** Construction *)

(** C8, as the code has it. For an identifier in the registry the
    registered router and wrapped-native addresses are checksummed and
    non-zero, and a constructed object holds exactly them. For an
    identifier outside the registry no object is constructed; the error
    is the unsupported-DEX one whenever the steps that come first (the
    choice of the endpoint by the network, the loading of the key)
    succeed. *)
Theorem registry_lookup_at_construction dex network :
  (forall entry,
      SUPPORTED_DEXES !! dex = Some entry ->
      is_checksum_address (router entry)
      /\ is_checksum_address (weth entry)
      /\ router entry <> zero_address
      /\ weth entry <> zero_address
      /\ forall trader : MemeCoinTrader Abi,
           __init__ dex network = Ok trader ->
           current_dex trader = dex
           /\ router_address trader = router entry
           /\ weth_address trader = weth entry)
  /\ (SUPPORTED_DEXES !! dex = None ->
      (exists e, __init__ dex network = Raise e)
      /\ forall url key acct,
           (network = "ethereum" /\ config "INFURA_URL" = Ok url
            \/ network = "bsc" /\ config "BSC_NODE_URL" = Ok url) ->
           config "PRIVATE_KEY" = Ok key ->
           from_key key = Ok acct ->
           __init__ dex network
           = Raise (ValueError ("Unsupported DEX: " +:+ dex))).
Proof.
  split.
  - intros entry Hentry.
    destruct (registry_checksummed dex entry Hentry)
      as (Hr & Hw & Hrz & Hwz).
    repeat (split; [assumption | ]).
    intros trader. unfold __init__, bindR. rewrite Hentry.
    unfold is_checksum_address in Hr, Hw. rewrite Hr, Hw.
    unfold Ok, Raise. cbv beta iota.
    repeat match goal with
    | |- context [match ?x with _ => _ end] => destruct x
    end; intros Heq; inversion Heq; subst; auto.
  - intros Hnone. split.
    + unfold __init__, bindR. rewrite Hnone. unfold Ok, Raise.
      repeat match goal with
      | |- context [match ?x with _ => _ end] => destruct x
      end; eauto.
    + intros url key acct Hnet Hkey Hacct.
      unfold __init__, bindR. rewrite Hnone.
      destruct Hnet as [[-> Hurl] | [-> Hurl]];
        cbn [String.eqb Ascii.eqb Bool.eqb];
        rewrite Hurl; cbn [Ok]; rewrite Hkey; cbn [Ok]; rewrite Hacct;
        reflexivity.
Qed.

(** ** The attributes of the object *)

Lemma keeps_self_ret {A} (a : A) : keeps_self (ret a : M A).
Proof. intros st. reflexivity. Qed.

Lemma keeps_self_eval {A} (r : Result A) : keeps_self (eval r : M A).
Proof. intros st. reflexivity. Qed.

Lemma keeps_self_this : keeps_self (this : M _).
Proof. intros st. reflexivity. Qed.

Lemma keeps_self_print line : keeps_self (print line : M _).
Proof. intros st. reflexivity. Qed.

Lemma keeps_self_request {A} (q : World -> Result A * World)
    (record : Result A -> Request Receipt) :
  keeps_self (request q record : M A).
Proof. intros st. unfold request. destruct (q (world st)). reflexivity. Qed.

Lemma keeps_self_bind {A B} (m : M A) (k : A -> M B) :
  keeps_self m -> (forall a, keeps_self (k a)) -> keeps_self (bind m k).
Proof.
  intros Hm Hk st. unfold bind. specialize (Hm st).
  destruct (m st) as [[e | a] st1]; cbn [snd] in *; [exact Hm | ].
  rewrite Hk. exact Hm.
Qed.

Lemma keeps_self_try_except {A} (body : M A) handler :
  keeps_self body -> (forall e, keeps_self (handler e)) ->
  keeps_self (try_except body handler).
Proof.
  intros Hb Hh st. unfold try_except. specialize (Hb st).
  destruct (body st) as [[e | a] st1]; cbn [snd] in *; [ | exact Hb].
  rewrite Hh. exact Hb.
Qed.

Create HintDb keeps discriminated.

#[local] Hint Resolve keeps_self_ret keeps_self_eval keeps_self_this
  keeps_self_print keeps_self_request keeps_self_bind keeps_self_try_except
  : keeps.

Lemma keeps_self_sign_and_send tx : keeps_self (sign_and_send tx).
Proof. unfold sign_and_send. auto 10 with keeps. Qed.

Lemma keeps_self_transaction_of b : keeps_self (transaction_of b).
Proof.
  destruct b; cbn [transaction_of];
    unfold buy_token_transaction, sell_token_transaction,
           approve_token_transaction;
    auto 20 with keeps.
Qed.

Lemma keeps_self_get_token_price token amount :
  keeps_self (get_token_price token amount).
Proof. unfold get_token_price. auto 20 with keeps. Qed.

(** C10. Each public method leaves the attributes of the object as they
    were, whether it returns or raises: [current_dex], [router_address],
    [weth_address], [account] and [private_key] (and all the others) are
    the same after the call as before it. *)
Theorem public_methods_keep_session op (st : State) :
  let st' := state_after op st in
  current_dex (self st') = current_dex (self st)
  /\ router_address (self st') = router_address (self st)
  /\ weth_address (self st') = weth_address (self st)
  /\ account (self st') = account (self st)
  /\ private_key (self st') = private_key (self st)
  /\ self st' = self st.
Proof.
  cbn zeta.
  assert (Hself : self (state_after op st) = self st).
  { destruct op; cbn [state_after].
    - apply keeps_self_get_token_price.
    - apply (keeps_self_bind _ _ (keeps_self_transaction_of (Buy _ _))
                             keeps_self_sign_and_send).
    - apply (keeps_self_bind _ _ (keeps_self_transaction_of (Sell _ _))
                             keeps_self_sign_and_send).
    - apply (keeps_self_bind _ _ (keeps_self_transaction_of (Approve _))
                             keeps_self_sign_and_send). }
  rewrite Hself. repeat split.
Qed.

(** * Further properties of the methods *)

(** ** Amounts *)

(** A coefficient is at least the power of ten of its digits but one. *)
Lemma count_digits_lower fuel c :
  0 < c -> 10 ^ Z.of_nat (pred (count_digits fuel c)) <= c.
Proof.
  revert c. induction fuel as [ | fuel IH]; intros c Hc; cbn [count_digits].
  - cbn. lia.
  - destruct (Z.eqb_spec c 0) as [-> | _]; [lia | ]. cbn [pred].
    destruct (Z.eq_dec (c / 10) 0) as [Hq | Hq].
    + rewrite Hq. destruct fuel; cbn; lia.
    + assert (Hpos : 0 < c / 10)
        by (pose proof (Z.div_pos c 10); lia).
      specialize (IH _ Hpos).
      destruct (count_digits fuel (c / 10)) as [ | k]; [cbn; lia | ].
      cbn [pred] in IH. rewrite Nat2Z.inj_succ, Z.pow_succ_r by lia.
      pose proof (Z.mul_div_le c 10). lia.
Qed.

Lemma count_digits_upper fuel c :
  0 <= c < 2 ^ Z.of_nat fuel -> c < 10 ^ Z.of_nat (count_digits fuel c).
Proof.
  revert c. induction fuel as [ | fuel IH]; intros c Hc; cbn [count_digits].
  - cbn in *. lia.
  - destruct (Z.eqb_spec c 0) as [-> | Hz]; [cbn; lia | ].
    rewrite Nat2Z.inj_succ, Z.pow_succ_r in * by lia.
    assert (Hq : 0 <= c / 10 < 2 ^ Z.of_nat fuel).
    { split; [apply Z.div_pos; lia | ].
      apply Z.div_lt_upper_bound; lia. }
    specialize (IH _ Hq).
    pose proof (Z.mul_succ_div_gt c 10). lia.
Qed.

Lemma digits_upper c : Z.abs c < 10 ^ Z.of_nat (digits c).
Proof.
  unfold digits. apply count_digits_upper.
  split; [lia | ].
  destruct (Z.eq_dec c 0) as [-> | Hc]; [cbn; lia | ].
  rewrite Nat2Z.inj_succ, Z2Nat.id by apply Z.log2_nonneg.
  apply Z.log2_spec. lia.
Qed.

(** [digits] counts the decimal digits of a coefficient. *)
Lemma digits_spec c :
  c <> 0 ->
  10 ^ Z.of_nat (pred (digits c)) <= Z.abs c < 10 ^ Z.of_nat (digits c).
Proof.
  intros Hc. split; [ | apply digits_upper].
  unfold digits. apply count_digits_lower. lia.
Qed.

Lemma half_even_lower a b : 0 < b -> a / b <= half_even a b.
Proof.
  intros Hb. unfold half_even.
  destruct (_ <? _); [lia | ].
  destruct (_ <? _); [lia | ].
  destruct (Z.even _); lia.
Qed.

(** Rounding to a precision of at least one digit keeps the sign. *)
Lemma round_to_sign prec c e :
  (0 < prec)%nat -> Z.sgn (fst (round_to prec c e)) = Z.sgn c.
Proof.
  intros Hprec. unfold round_to.
  destruct (Nat.leb_spec (digits c) prec) as [_ | Hn]; [reflexivity | ].
  cbn [fst]. destruct (Z.eq_dec c 0) as [-> | Hc]; [reflexivity | ].
  assert (Habs : 0 < Z.abs c) by lia.
  pose proof (count_digits_lower
                (S (Z.to_nat (Z.log2 (Z.abs c)))) _ Habs) as Hlow.
  fold (digits c) in Hlow.
  set (excess := Z.of_nat (digits c - prec)) in *.
  assert (Hle : 10 ^ excess <= Z.abs c).
  { etransitivity; [ | exact Hlow].
    apply Z.pow_le_mono_r; subst excess; lia. }
  assert (Hb : 0 < 10 ^ excess)
    by (apply Z.pow_pos_nonneg; subst excess; lia).
  pose proof (half_even_lower (Z.abs c) _ Hb) as Hh.
  assert (1 <= Z.abs c / 10 ^ excess)
    by (apply Z.div_le_lower_bound; lia).
  rewrite Z.sgn_mul, Z.sgn_sgn.
  rewrite (Z.sgn_pos (half_even _ _)) by lia. lia.
Qed.

Lemma number_sign (number : Number) :
  Z.sgn (mantissa (exact number)) = Z.sgn (mantissa number).
Proof.
  pose proof (number_ok number) as H. unfold in_range in H.
  repeat (apply andb_prop in H; destruct H as [H ?]).
  apply Z.eqb_eq. exact H.
Qed.

Lemma number_digits (number : Number) :
  (digits (mantissa number) <=? 999)%nat = true.
Proof.
  pose proof (number_ok number) as H. unfold in_range in H.
  repeat (apply andb_prop in H; destruct H as [H ?]). assumption.
Qed.

Lemma round_to_fits prec c e :
  (digits c <=? prec)%nat = true -> round_to prec c e = (c, e).
Proof. intros H. unfold round_to. rewrite H. reflexivity. Qed.

Lemma pow10_pos n : 0 < 10 ^ Z.of_nat n.
Proof. apply Z.pow_pos_nonneg; lia. Qed.

(** The unit against the scale of a number: the one is a multiple of the
    other. *)
Lemma ether_by_scale (n : nat) :
  let e := 18 - Z.of_nat n in
  (0 <= e /\ ether = 10 ^ e * 10 ^ Z.of_nat n)
  \/ (e < 0 /\ 10 ^ Z.of_nat n = 10 ^ (- e) * ether /\ 0 < 10 ^ (- e)).
Proof.
  cbn zeta. unfold ether. destruct (Z.le_gt_cases 0 (18 - Z.of_nat n)).
  - left. split; [assumption | ].
    rewrite <- Z.pow_add_r by lia. f_equal. lia.
  - right. split; [assumption | ]. split.
    + rewrite <- Z.pow_add_r by lia. f_equal. lia.
    + apply Z.pow_pos_nonneg; lia.
Qed.


(** On a number taken as printed, [to_wei] is the product with 10^18,
    checked and cut. *)
Lemma to_wei_printed (number : Number) :
  mantissa number <> 0 -> printed number ->
  to_wei number
  = let c := mantissa number in
    let e := 18 - Z.of_nat (scale number) in
    if 0 <=? e then
      if (c * 10 ^ e <? MIN_WEI) || (MAX_WEI <? c * 10 ^ e)
      then Raise (ValueError
                    "Resulting wei value must be between 1 and 2**256 - 1")
      else Ok (c * 10 ^ e)
    else
      if (c <? MIN_WEI * 10 ^ (- e)) || (MAX_WEI * 10 ^ (- e) <? c)
      then Raise (ValueError
                    "Resulting wei value must be between 1 and 2**256 - 1")
      else Ok (Z.quot c (10 ^ (- e))).
Proof.
  intros Hz Hprinted. unfold to_wei.
  destruct (Z.eqb_spec (mantissa number) 0) as [? | _]; [contradiction | ].
  assert (Hscaled :
    match after_point (s_number number) with
    | Some multiplier =>
        if mantissa number <? 10 ^ Z.of_nat (scale number) then
          match multiplier with
          | O => Raise (ValueError "valid range for prec is [1, MAX_PREC]")
          | S _ =>
              Ok (round_to multiplier (mantissa (exact number))
                    (Z.of_nat multiplier - Z.of_nat (scale (exact number))),
                  18 - Z.of_nat multiplier)
          end
        else Ok (mantissa number, - Z.of_nat (scale number), 18)
    | None => Ok (mantissa number, - Z.of_nat (scale number), 18)
    end = Ok (mantissa number, - Z.of_nat (scale number), 18)).
  { destruct Hprinted as [-> | Hge]; [reflexivity | ].
    destruct (after_point _); [ | reflexivity].
    destruct (Z.ltb_spec (mantissa number) (10 ^ Z.of_nat (scale number)));
      [lia | reflexivity]. }
  cbn zeta. rewrite Hscaled. unfold Ok at 1.
  rewrite (round_to_fits _ _ _ (number_digits number)).
  replace (- Z.of_nat (scale number) + 18)
    with (18 - Z.of_nat (scale number)) by lia.
  reflexivity.
Qed.


Lemma to_wei_raises (number : Number) :
  mantissa number < 0
  \/ MAX_WEI * 10 ^ Z.of_nat (scale number) < mantissa number * ether ->
  exists msg, to_wei number = Raise (ValueError msg).
Proof.
  intros Hbad.
  pose proof (pow10_pos (scale number)) as Hden.
  assert (Hmax : 0 <= MAX_WEI) by (vm_compute; discriminate).
  assert (Hone : ether <= MAX_WEI) by (vm_compute; discriminate).
  assert (Hether : 0 < ether) by reflexivity.
  assert (Hz : mantissa number <> 0) by (destruct Hbad; nia).
  assert (Hcases :
    printed number
    \/ mantissa number < 0
       /\ exists multiplier,
            after_point (s_number number) = Some multiplier
            /\ mantissa number < 10 ^ Z.of_nat (scale number)).
  { unfold printed. destruct (after_point _) as [m | ]; [ | auto].
    destruct (Z.le_gt_cases (10 ^ Z.of_nat (scale number))
                            (mantissa number)); [auto | ].
    right. split; [destruct Hbad; nia | eauto]. }
  destruct Hcases as [Hprinted | (Hneg & m & Hm & Hlt)].
  - rewrite (to_wei_printed _ Hz Hprinted). cbn zeta. unfold MIN_WEI.
    destruct (ether_by_scale (scale number))
      as [[He Hunit] | (He & Hscale & Hpos)]; cbn zeta in *.
    + destruct (Z.leb_spec 0 (18 - Z.of_nat (scale number))); [ | lia].
      destruct (_ || _)%bool eqn:Hrange; [eauto | exfalso].
      apply Bool.orb_false_elim in Hrange. destruct Hrange as [Hlo Hhi].
      apply Z.ltb_ge in Hlo, Hhi. rewrite Hunit in Hbad.
      destruct Hbad as [Hbad | Hbad]; nia.
    + destruct (Z.leb_spec 0 (18 - Z.of_nat (scale number))); [lia | ].
      destruct (_ || _)%bool eqn:Hrange; [eauto | exfalso].
      apply Bool.orb_false_elim in Hrange. destruct Hrange as [Hlo Hhi].
      apply Z.ltb_ge in Hlo, Hhi. rewrite Hscale in Hbad.
      destruct Hbad as [Hbad | Hbad]; nia.
  - unfold to_wei.
    destruct (Z.eqb_spec (mantissa number) 0) as [? | _]; [contradiction | ].
    cbn zeta. rewrite Hm.
    destruct (Z.ltb_spec (mantissa number) (10 ^ Z.of_nat (scale number)));
      [ | lia].
    destruct m as [ | m]; [eauto | ]. unfold Ok at 1.
    pose proof (round_to_sign (S m) (mantissa (exact number))
                  (Z.of_nat (S m) - Z.of_nat (scale (exact number)))
                  ltac:(lia)) as Hfirst.
    destruct (round_to (S m) _ _) as [c e]. cbn [fst] in Hfirst.
    pose proof (round_to_sign 999 c (e + (18 - Z.of_nat (S m)))
                  ltac:(lia)) as Hsecond.
    destruct (round_to 999 _ _) as [c' e']. cbn [fst] in Hsecond.
    assert (Hc : c' < 0).
    { pose proof (number_sign number) as Hsign.
      rewrite Hfirst, Hsign in Hsecond.
      rewrite (Z.sgn_neg (mantissa number)) in Hsecond by exact Hneg.
      apply Z.sgn_neg_iff. exact Hsecond. }
    unfold MIN_WEI. destruct (Z.leb_spec 0 e') as [He | He].
    + assert (Hpow : 0 < 10 ^ e') by (apply Z.pow_pos_nonneg; lia).
      destruct (Z.ltb_spec (c' * 10 ^ e') 0); [cbn; eauto | nia].
    + destruct (Z.ltb_spec c' (0 * 10 ^ (- e'))); [cbn; eauto | lia].
Qed.


(** ** Refusals *)

(** X2. A token address that is not an address stops each of the four
    methods with a [ValueError] before anything else happens: no request
    goes to the node, nothing is printed, signed or sent. *)
Theorem malformed_address_is_refused token e (st : State) :
  to_checksum_address token = Raise e ->
  (exists msg, e = ValueError msg)
  /\ (forall amount, get_token_price token amount st = (Raise e, st))
  /\ (forall amount_eth, buy_token token amount_eth st = (Raise e, st))
  /\ (forall amount_tokens,
        sell_token token amount_tokens st = (Raise e, st))
  /\ approve_token token st = (Raise e, st).
Proof.
  intros H. split; [exact (to_checksum_address_raises _ _ H) | ].
  unfold get_token_price, buy_token, sell_token, approve_token,
    buy_token_transaction, sell_token_transaction, approve_token_transaction,
    bind, eval, this.
  rewrite H. repeat split.
Qed.

(** X3. An amount of native currency that is negative or beyond
    2^256 - 1 smallest units stops [buy_token]: the latest block has been
    asked for by then, and that is the only request made; no gas price or
    transaction count is fetched and nothing is signed or sent. *)
Theorem buy_token_refuses_bad_amount
    token tok (amount_eth : Number) (st : State) :
  to_checksum_address token = Ok tok ->
  mantissa amount_eth < 0
  \/ (2 ^ 256 - 1) * 10 ^ Z.of_nat (scale amount_eth)
     < mantissa amount_eth * 10 ^ 18 ->
  exists e answer w,
    get_block (w3 (self st)) "latest" (world st) = (answer, w)
    /\ buy_token token amount_eth st
       = (Raise e,
          {| self := self st; world := w; stdout := stdout st;
             requests :=
               requests st ++ [GetBlock (w3 (self st)) "latest" answer] |})
    /\ (forall blk, answer = Ok blk -> exists msg, e = ValueError msg).
Proof.
  intros Htok Hbad. destruct (to_wei_raises amount_eth Hbad) as [msg Hmsg].
  unfold buy_token, buy_token_transaction, bind, eval, this, request.
  fold WETH. cbn [Ok self]. rewrite Htok. cbn [Ok self world].
  destruct (get_block _ _ _) as [[e | blk] w].
  2: cbn [Ok self world stdout requests];
     rewrite WETH_checksummed; cbn [Ok]; rewrite Hmsg.
  - exists e, (inl e), w.
    split; [reflexivity | split; [reflexivity | intros blk H; discriminate]].
  - exists (ValueError msg), (inr blk), w.
    split; [reflexivity | split; [reflexivity | eauto]].
Qed.

(** ** Signing and sending *)

Lemma perform_unfold b :
  perform b = bind (transaction_of b) sign_and_send.
Proof. destruct b; reflexivity. Qed.

Lemma perform_returns_aux b (st : State) receipt st' :
  perform b st = (inr receipt, st') ->
  exists tx st1 signed tx_hash w,
    let node := w3 (self st) in
    transaction_of b st = (Ok tx, st1)
    /\ sign_transaction tx (private_key (self st)) = Ok signed
    /\ send_raw_transaction node (rawTransaction signed) (world st1)
       = (Ok tx_hash, w)
    /\ wait_for_transaction_receipt node tx_hash w = (Ok receipt, world st')
    /\ during st1 st'
         [SendRawTransaction node (rawTransaction signed) (Ok tx_hash);
          WaitForTransactionReceipt node tx_hash (Ok receipt)].
Proof.
  rewrite perform_unfold. intros H.
  apply bind_returns in H. destruct H as (tx & st1 & Hbuild & H).
  pose proof (keeps_self_transaction_of b st) as Hself.
  rewrite Hbuild in Hself. cbn [snd] in Hself.
  unfold sign_and_send in H. peel H.
  apply request_returns in H. destruct H as (w0 & Hwait & ->).
  cbn [self world stdout requests] in *.
  rewrite Hself in *.
  exists tx, st1. do 3 eexists. cbn zeta.
  split; [exact Hbuild | ]. split; [eassumption | ].
  split; [eassumption | ]. split; [eassumption | ].
  unfold during. cbn [requests]. rewrite <- app_assoc. reflexivity.
Qed.


(** X4. A call of [buy_token], [sell_token] or [approve_token] that
    returns has built one transaction, signed it with the key of the
    session, handed the signed bytes to the node once, and waited once,
    for the hash the node gave back; what it returns is the receipt that
    wait produced. *)
Theorem perform_returns b (st : State) receipt st' :
  perform b st = (inr receipt, st') ->
  exists tx st1 signed tx_hash w,
    let node := w3 (self st) in
    transaction_of b st = (Ok tx, st1)
    /\ sign_transaction tx (private_key (self st)) = Ok signed
    /\ send_raw_transaction node (rawTransaction signed) (world st1)
       = (Ok tx_hash, w)
    /\ wait_for_transaction_receipt node tx_hash w = (Ok receipt, world st')
    /\ during st1 st'
         [SendRawTransaction node (rawTransaction signed) (Ok tx_hash);
          WaitForTransactionReceipt node tx_hash (Ok receipt)].
Proof. apply perform_returns_aux. Qed.

(** X5. A call of [buy_token] or [sell_token] that returns has made,
    through the statements of the method, five requests to the node in
    this order: the latest block, the gas price, the transaction count,
    the raw transaction, the wait for its receipt. The method asks for
    no balance, allowance or price before handing the transaction
    over. *)
Theorem swap_call_exchanges b (st : State) receipt st' :
  is_swap b = true ->
  perform b st = (inr receipt, st') ->
  exists blk p n raw tx_hash,
    let node := w3 (self st) in
    during st st'
      [GetBlock node "latest" (Ok blk);
       GasPrice node (Ok p);
       GetTransactionCount node (address (account (self st))) (Ok n);
       SendRawTransaction node raw (Ok tx_hash);
       WaitForTransactionReceipt node tx_hash (Ok receipt)].
Proof.
  intros Hs H. apply perform_returns_aux in H.
  destruct H as (tx & st1 & signed & tx_hash & w & Hbuild & _ & _ & _ & Hd).
  destruct (swap_requests _ _ _ _ Hs Hbuild) as (blk & Hd1 & _).
  exists blk, (tx_gasPrice tx), (tx_nonce tx), (rawTransaction signed), tx_hash.
  cbn zeta. unfold during in *. rewrite Hd, Hd1, <- app_assoc. reflexivity.
Qed.

(** X6. Nothing is retried. Once a transaction is built: if signing
    fails nothing is sent; if the node refuses the transaction the
    refusal is raised and no receipt is waited for; if the wait fails the
    failure is raised although the transaction has been handed over. *)
Theorem perform_fails_without_retry b (st : State) tx st1 :
  transaction_of b st = (inr tx, st1) ->
  let node := w3 (self st) in
  (forall e,
      sign_transaction tx (private_key (self st)) = Raise e ->
      perform b st = (Raise e, st1))
  /\ (forall signed e w,
        sign_transaction tx (private_key (self st)) = Ok signed ->
        send_raw_transaction node (rawTransaction signed) (world st1)
        = (Raise e, w) ->
        perform b st
        = (Raise e,
           {| self := self st; world := w; stdout := stdout st1;
              requests :=
                requests st1 ++
                  [SendRawTransaction node (rawTransaction signed)
                                      (Raise e)] |}))
  /\ (forall signed tx_hash e w w',
        sign_transaction tx (private_key (self st)) = Ok signed ->
        send_raw_transaction node (rawTransaction signed) (world st1)
        = (Ok tx_hash, w) ->
        wait_for_transaction_receipt node tx_hash w = (Raise e, w') ->
        perform b st
        = (Raise e,
           {| self := self st; world := w'; stdout := stdout st1;
              requests :=
                requests st1 ++
                  [SendRawTransaction node (rawTransaction signed)
                                      (Ok tx_hash);
                   WaitForTransactionReceipt node tx_hash (Raise e)] |})).
Proof.
  intros Hbuild. cbn zeta.
  pose proof (keeps_self_transaction_of b st) as Hself.
  rewrite Hbuild in Hself. cbn [snd] in Hself.
  assert (Hperform : perform b st = sign_and_send tx st1)
    by (rewrite perform_unfold; unfold bind at 1; rewrite Hbuild;
        reflexivity).
  rewrite Hperform.
  unfold sign_and_send, bind, this, eval, request.
  cbn [Ok self world stdout requests]. rewrite Hself.
  split; [ | split].
  - intros e ->. reflexivity.
  - intros signed e w -> Hsend. cbn [Ok]. rewrite Hsend. reflexivity.
  - intros signed tx_hash e w w' -> Hsend Hwait. cbn [Ok]. rewrite Hsend.
    cbn [Ok self world stdout requests]. rewrite Hwait.
    rewrite <- app_assoc. reflexivity.
Qed.

(** ** How many transactions a call hands over *)

Lemma sent_app (l1 l2 : list (Request Receipt)) :
  sent (l1 ++ l2) = sent l1 ++ sent l2.
Proof.
  induction l1 as [| r l1 IH]; [reflexivity | ].
  destruct r; cbn [sent app]; rewrite IH; reflexivity.
Qed.

Lemma sends_at_most_weaken {A} n k (m : M A) :
  (n <= k)%nat -> sends_at_most n m -> sends_at_most k m.
Proof.
  intros Hle Hm st. destruct (Hm st) as (made & Hmade & Hn).
  exists made. split; [exact Hmade | lia].
Qed.

Lemma sends_nothing_ret {A} (a : A) : sends_at_most 0 (ret a : M A).
Proof. intros st. exists []. split; [symmetry; apply app_nil_r | reflexivity]. Qed.

Lemma sends_nothing_eval {A} (r : Result A) : sends_at_most 0 (eval r : M A).
Proof. intros st. exists []. split; [symmetry; apply app_nil_r | reflexivity]. Qed.

Lemma sends_nothing_this : sends_at_most 0 (this : M _).
Proof. intros st. exists []. split; [symmetry; apply app_nil_r | reflexivity]. Qed.

Lemma sends_nothing_print line : sends_at_most 0 (print line : M _).
Proof. intros st. exists []. split; [symmetry; apply app_nil_r | reflexivity]. Qed.

Lemma sends_nothing_request {A} (q : World -> Result A * World)
    (record : Result A -> Request Receipt) :
  (forall r, sent [record r] = []) ->
  sends_at_most 0 (request q record : M A).
Proof.
  intros Hrecord st. unfold request. destruct (q (world st)) as [r w].
  exists [record r]. split; [reflexivity | ]. rewrite Hrecord. reflexivity.
Qed.

Lemma sends_once_request (q : World -> Result (list Z) * World) node raw :
  sends_at_most 1 (request q (SendRawTransaction node raw) : M _).
Proof.
  intros st. unfold request. destruct (q (world st)) as [r w].
  eexists [_]. split; reflexivity.
Qed.

Lemma sends_at_most_bind {A B} n1 n2 (m : M A) (k : A -> M B) :
  sends_at_most n1 m -> (forall a, sends_at_most n2 (k a)) ->
  sends_at_most (n1 + n2) (bind m k).
Proof.
  intros Hm Hk st. unfold bind. destruct (Hm st) as (made1 & Hmade1 & Hn1).
  destruct (m st) as [[e | a] st1]; cbn [snd] in *.
  - exists made1. split; [exact Hmade1 | lia].
  - destruct (Hk a st1) as (made2 & Hmade2 & Hn2).
    exists (made1 ++ made2). split.
    + rewrite Hmade2, Hmade1, app_assoc. reflexivity.
    + rewrite sent_app, length_app. lia.
Qed.

Lemma sends_at_most_try_except {A} n1 n2 (body : M A) handler :
  sends_at_most n1 body -> (forall e, sends_at_most n2 (handler e)) ->
  sends_at_most (n1 + n2) (try_except body handler).
Proof.
  intros Hb Hh st. unfold try_except.
  destruct (Hb st) as (made1 & Hmade1 & Hn1).
  destruct (body st) as [[e | a] st1]; cbn [snd] in *.
  - destruct (Hh e st1) as (made2 & Hmade2 & Hn2).
    exists (made1 ++ made2). split.
    + rewrite Hmade2, Hmade1, app_assoc. reflexivity.
    + rewrite sent_app, length_app. lia.
  - exists made1. split; [exact Hmade1 | lia].
Qed.

(** Walks through a method, statement by statement. *)
Ltac count_sends :=
  repeat first
    [ eapply sends_at_most_bind
    | eapply sends_at_most_try_except
    | apply sends_nothing_ret
    | apply sends_nothing_eval
    | apply sends_nothing_this
    | apply sends_nothing_print
    | apply sends_once_request
    | apply sends_nothing_request; intros; reflexivity
    | intros ].

Lemma transaction_of_sends_nothing b : sends_at_most 0 (transaction_of b).
Proof.
  eapply sends_at_most_weaken; cycle 1.
  - destruct b; cbn [transaction_of];
      unfold buy_token_transaction, sell_token_transaction,
             approve_token_transaction;
      count_sends.
  - reflexivity.
Qed.

Lemma sign_and_send_sends_once tx : sends_at_most 1 (sign_and_send tx).
Proof.
  eapply sends_at_most_weaken; cycle 1.
  - unfold sign_and_send. count_sends.
  - reflexivity.
Qed.

Lemma get_token_price_sends_nothing token amount :
  sends_at_most 0 (get_token_price token amount).
Proof.
  eapply sends_at_most_weaken; cycle 1.
  - unfold get_token_price. count_sends.
  - reflexivity.
Qed.

Lemma perform_sends_once b : sends_at_most 1 (perform b).
Proof.
  rewrite perform_unfold.
  apply (sends_at_most_bind 0 1);
    [apply transaction_of_sends_nothing | apply sign_and_send_sends_once].
Qed.

(** Whatever happens during a call, [buy_token], [sell_token] and
    [approve_token] hand at most one raw transaction to the node, and
    [get_token_price] hands over none. *)
Lemma at_most_one_transaction_per_call op (st : State) :
  exists made,
    during st (state_after op st) made
    /\ (length (sent made) <= if submits op then 1 else 0)%nat.
Proof.
  destruct op as [token amount | token amount | token amount | token];
    cbn [state_after submits].
  - apply get_token_price_sends_nothing.
  - apply (perform_sends_once (Buy token amount)).
  - apply (perform_sends_once (Sell token amount)).
  - apply (perform_sends_once (Approve token)).
Qed.


Lemma state_after_keeps_self op (st : State) :
  self (state_after op st) = self st.
Proof.
  destruct op; cbn [state_after].
  - apply keeps_self_get_token_price.
  - apply (keeps_self_bind _ _ (keeps_self_transaction_of (Buy _ _))
                           keeps_self_sign_and_send).
  - apply (keeps_self_bind _ _ (keeps_self_transaction_of (Sell _ _))
                           keeps_self_sign_and_send).
  - apply (keeps_self_bind _ _ (keeps_self_transaction_of (Approve _))
                           keeps_self_sign_and_send).
Qed.

(** X7. Over any sequence of calls on one object, the attributes stay
    what they were at the start, the record of exchanges only grows, and
    the node is handed at most as many raw transactions as the sequence
    has calls other than price queries. *)
Theorem sequence_of_calls ops (st : State) :
  self (state_after_all ops st) = self st
  /\ exists made,
       during st (state_after_all ops st) made
       /\ (length (sent made) <= submissions ops)%nat.
Proof.
  revert st. induction ops as [| op ops IH]; intros st;
    cbn [state_after_all fold_left submissions].
  - split; [reflexivity | ]. exists [].
    split; [symmetry; apply app_nil_r | reflexivity].
  - destruct (IH (state_after op st)) as (Hself & made2 & Hmade2 & Hn2).
    fold (state_after_all ops (state_after op st)).
    split; [rewrite Hself; apply state_after_keeps_self | ].
    destruct (at_most_one_transaction_per_call op st)
      as (made1 & Hmade1 & Hn1).
    exists (made1 ++ made2). unfold during in *. split.
    + rewrite Hmade2, Hmade1, app_assoc. reflexivity.
    + rewrite sent_app, length_app. lia.
Qed.

(** ** More on the built transactions *)

(** X8. The gas price of a built transaction is the one the node gave
    during that call, in the request made right before the one for the
    transaction count. *)
Theorem gas_price_is_fetched b (st : State) tx st' :
  transaction_of b st = (inr tx, st') ->
  exists before n,
    during st st'
      (before ++
       [GasPrice (w3 (self st)) (Ok (tx_gasPrice tx));
        GetTransactionCount (w3 (self st)) (address (account (self st)))
                            (Ok n)]).
Proof.
  destruct b as [token amount | token amount | token]; cbn [transaction_of];
    intros H.
  - apply buy_token_transaction_returns in H.
    destruct H as (tok & blk & v & p & n & wa & wb & wc & H).
    cbn zeta in H. destruct H as (_ & _ & _ & _ & _ & -> & ->).
    eexists [_], n. reflexivity.
  - apply sell_token_transaction_returns in H.
    destruct H as (tok & blk & p & n & wa & wb & wc & H).
    cbn zeta in H. destruct H as (_ & _ & _ & _ & -> & ->).
    eexists [_], n. reflexivity.
  - apply approve_token_transaction_returns in H.
    destruct H as (tok & abi & p & n & wa & wb & H).
    cbn zeta in H. destruct H as (_ & _ & _ & _ & -> & ->).
    exists [], n. reflexivity.
Qed.

(** X9. Every address in the path of a built swap, and the contract an
    approval is sent to, is in checksummed form, however the token
    address was written by the caller. *)
Theorem built_addresses_are_checksummed b (st : State) tx st' :
  transaction_of b st = (inr tx, st') ->
  Forall is_checksum_address (path_of (tx_data tx))
  /\ match b with
     | Approve token =>
         to_checksum_address token = Ok (tx_to tx)
         /\ is_checksum_address (tx_to tx)
     | _ => length (path_of (tx_data tx)) = 2%nat
     end.
Proof.
  destruct b as [token amount | token amount | token]; cbn [transaction_of];
    intros H.
  - apply buy_token_transaction_returns in H.
    destruct H as (tok & blk & v & p & n & wa & wb & wc & H).
    cbn zeta in H. destruct H as (Htok & _ & _ & _ & _ & -> & _).
    cbn [tx_data path_of]. split; [ | reflexivity].
    constructor; [exact WETH_checksummed | ].
    constructor; [ | constructor].
    exact (to_checksum_address_idempotent _ _ Htok).
  - apply sell_token_transaction_returns in H.
    destruct H as (tok & blk & p & n & wa & wb & wc & H).
    cbn zeta in H. destruct H as (Htok & _ & _ & _ & -> & _).
    cbn [tx_data path_of]. split; [ | reflexivity].
    constructor; [exact (to_checksum_address_idempotent _ _ Htok) | ].
    constructor; [exact WETH_checksummed | constructor].
  - apply approve_token_transaction_returns in H.
    destruct H as (tok & abi & p & n & wa & wb & H).
    cbn zeta in H. destruct H as (Htok & _ & _ & _ & -> & _).
    cbn [tx_data tx_to path_of]. split; [constructor | ].
    split; [exact Htok | exact (to_checksum_address_idempotent _ _ Htok)].
Qed.

(** X10. The methods look at a token address only through its checksummed
    form: called with that form, each of them does exactly what it does
    with the address as the caller wrote it. *)
Theorem checksummed_form_is_equivalent token tok :
  to_checksum_address token = Ok tok ->
  (forall amount (st : State),
      get_token_price tok amount st = get_token_price token amount st)
  /\ (forall amount_eth (st : State),
        buy_token tok amount_eth st = buy_token token amount_eth st)
  /\ (forall amount_tokens (st : State),
        sell_token tok amount_tokens st = sell_token token amount_tokens st)
  /\ (forall st : State, approve_token tok st = approve_token token st).
Proof.
  intros Htok. pose proof (to_checksum_address_idempotent _ _ Htok) as Hcan.
  unfold get_token_price, buy_token, sell_token, approve_token,
    buy_token_transaction, sell_token_transaction, approve_token_transaction,
    bind, eval, this.
  repeat split; intros; rewrite Htok, Hcan; reflexivity.
Qed.

(** ** More on the price query *)

Lemma from_wei_returns number price :
  from_wei number = Ok price ->
  mantissa price = number
  /\ 0 <= number <= MAX_WEI
  /\ (scale price = 18%nat \/ number = 0 /\ scale price = 0%nat).
Proof.
  unfold from_wei, Ok, Raise, MIN_WEI.
  assert (Hmax : 0 <= MAX_WEI) by (vm_compute; discriminate).
  destruct (Z.eqb_spec number 0) as [-> | Hz].
  - intros H. injection H as <-. cbn [mantissa scale]. auto with zarith.
  - destruct (_ || _)%bool eqn:Hrange; [discriminate | ].
    apply Bool.orb_false_elim in Hrange. destruct Hrange as [Hlo Hhi].
    apply Z.ltb_ge in Hlo, Hhi. intros H. injection H as <-.
    cbn [mantissa scale]. auto with zarith.
Qed.

(** X11. What [get_token_price] returns for a well-formed address. A
    price is the second amount of the router's answer to the one quote
    asked, between 0 and 2^256 - 1 smallest units, and nothing is
    printed; [None] comes with exactly one printed line, after at most
    that one quote. *)
Theorem get_token_price_outcome token tok amount (st : State) r st' :
  to_checksum_address token = Ok tok ->
  get_token_price token amount st = (inr r, st') ->
  let node := w3 (self st) in
  let router := contract_address (router_contract (self st)) in
  let quote v := getAmountsOut v [tok; weth_address (self st)] in
  match r with
  | Some price =>
      stdout st' = stdout st
      /\ 0 <= mantissa price <= 2 ^ 256 - 1
      /\ (scale price = 18%nat
          \/ mantissa price = 0 /\ scale price = 0%nat)
      /\ exists v amounts,
           to_wei amount = Ok v
           /\ nth_error amounts 1 = Some (mantissa price)
           /\ during st st' [Call node router (quote v) (Ok amounts)]
  | None =>
      exists e,
        stdout st' = stdout st ++ ["Error getting price: " +:+ str e]
        /\ (during st st' []
            \/ exists v answer,
                 to_wei amount = Ok v
                 /\ during st st' [Call node router (quote v) answer])
  end.
Proof.
  intros Htok. cbn zeta.
  unfold get_token_price, try_except, bind, eval, this, request, print, ret,
    during.
  rewrite Htok. unfold Ok, Raise. cbv beta iota.
  destruct (to_wei amount) as [e | v].
  { intros H. injection H as <- <-. cbn [stdout requests].
    exists e. split; [reflexivity | left; symmetry; apply app_nil_r]. }
  match goal with
  | |- context [call ?n ?a ?i ?c ?w0] =>
      destruct (call n a i c w0) as [[e | amounts] w]
  end.
  { intros H. injection H as <- <-. cbn [stdout requests].
    exists e. split; [reflexivity | right; eauto]. }
  cbn [self world stdout requests]. unfold getitem.
  destruct (nth_error amounts 1) as [quoted | ] eqn:Hnth.
  2: { intros H. injection H as <- <-. cbn [stdout requests].
       exists (IndexError "list index out of range").
       split; [reflexivity | right; eauto]. }
  unfold Ok. cbv beta iota.
  destruct (from_wei quoted) as [e | price] eqn:Hprice.
  { intros H. injection H as <- <-. cbn [stdout requests].
    exists e. split; [reflexivity | right; eauto]. }
  intros H. injection H as <- <-. cbn [stdout requests].
  apply from_wei_returns in Hprice.
  destruct Hprice as (Hm & Hrange & Hscale). unfold MAX_WEI in Hrange.
  split; [reflexivity | ]. split; [lia | ].
  split; [destruct Hscale as [? | [? ?]]; [left | right]; auto; lia | ].
  exists v, amounts. rewrite Hm. auto.
Qed.

(** X12. The edges of the price query, for a well-formed address. An
    amount that does not convert gives [None] without the node being
    asked; an answer with fewer than two amounts gives [None] with the
    index error printed; a quoted amount outside 0 .. 2^256 - 1 gives
    [None] as well. *)
Theorem get_token_price_edges token tok amount (st : State) :
  to_checksum_address token = Ok tok ->
  let node := w3 (self st) in
  let router := router_contract (self st) in
  let quote v := getAmountsOut v [tok; weth_address (self st)] in
  let ask v :=
    call node (contract_address router) (contract_abi router) (quote v)
         (world st) in
  (forall e,
      to_wei amount = Raise e ->
      get_token_price token amount st
      = (Ok None,
         {| self := self st; world := world st;
            stdout := stdout st ++ ["Error getting price: " +:+ str e];
            requests := requests st |}))
  /\ (forall v amounts w,
        to_wei amount = Ok v ->
        ask v = (Ok amounts, w) ->
        (length amounts < 2)%nat ->
        get_token_price token amount st
        = (Ok None,
           {| self := self st; world := w;
              stdout :=
                stdout st ++
                  ["Error getting price: list index out of range"];
              requests :=
                requests st ++
                  [Call node (contract_address router) (quote v)
                        (Ok amounts)] |}))
  /\ (forall v amounts w quoted,
        to_wei amount = Ok v ->
        ask v = (Ok amounts, w) ->
        nth_error amounts 1 = Some quoted ->
        quoted < 0 \/ 2 ^ 256 - 1 < quoted ->
        exists st',
          get_token_price token amount st = (Ok None, st')
          /\ world st' = w).
Proof.
  intros Htok. cbn zeta.
  unfold get_token_price, try_except, bind, eval, this, request, print, ret.
  rewrite Htok. unfold Ok, Raise. cbv beta iota.
  split; [ | split].
  - intros e ->. reflexivity.
  - intros v amounts w -> Hask Hshort. rewrite Hask.
    cbn [self world stdout requests]. unfold getitem.
    assert (Hnone : nth_error amounts 1 = None)
      by (apply nth_error_None; lia).
    rewrite Hnone. reflexivity.
  - intros v amounts w quoted -> Hask Hnth Hrange. rewrite Hask.
    cbn [self world stdout requests]. unfold getitem. rewrite Hnth.
    unfold Ok. cbv beta iota.
    destruct (from_wei quoted) as [e | price] eqn:Hprice.
    + eexists. split; reflexivity.
    + apply from_wei_returns in Hprice. unfold MAX_WEI in Hprice. lia.
Qed.

(** ** More on construction *)

Lemma init_steps dex network :
  __init__ dex network
  = bindR (endpoint network) (fun node =>
    bindR (config "PRIVATE_KEY") (fun key =>
    bindR (from_key key) (fun acct =>
    match SUPPORTED_DEXES !! dex with
    | None => Raise (ValueError ("Unsupported DEX: " +:+ dex))
    | Some entry =>
        bindR (to_checksum_address (router entry)) (fun r =>
        bindR (to_checksum_address (weth entry)) (fun w =>
        bindR (json_load (dex +:+ "_router_abi.json")) (fun abi =>
        Ok {| w3 := node; private_key := key; account := acct;
              current_dex := dex; router_address := r; weth_address := w;
              router_abi := abi;
              router_contract :=
                {| contract_address := r; contract_abi := abi |} |})))
    end))).
Proof. reflexivity. Qed.

Lemma lookup_checksummed dex entry :
  SUPPORTED_DEXES !! dex = Some entry ->
  to_checksum_address (router entry) = Ok (router entry)
  /\ to_checksum_address (weth entry) = Ok (weth entry).
Proof.
  intros H. destruct (registry_checksummed dex entry H) as (Hr & Hw & _).
  split; assumption.
Qed.

Lemma construction_succeeds_aux dex network (trader : MemeCoinTrader Abi) :
  __init__ dex network = Ok trader ->
  exists entry,
    SUPPORTED_DEXES !! dex = Some entry
    /\ endpoint network = Ok (w3 trader)
    /\ config "PRIVATE_KEY" = Ok (private_key trader)
    /\ from_key (private_key trader) = Ok (account trader)
    /\ json_load (dex +:+ "_router_abi.json") = Ok (router_abi trader)
    /\ current_dex trader = dex
    /\ router_address trader = router entry
    /\ weth_address trader = weth entry
    /\ router_contract trader
       = {| contract_address := router entry;
            contract_abi := router_abi trader |}.
Proof.
  rewrite init_steps. unfold bindR, Ok, Raise.
  destruct (endpoint network) as [e | node]; [discriminate | ].
  destruct (config "PRIVATE_KEY") as [e | key]; [discriminate | ].
  destruct (from_key key) as [e | acct] eqn:Hacct; [discriminate | ].
  destruct (SUPPORTED_DEXES !! dex) as [entry | ] eqn:Hentry;
    [ | discriminate].
  destruct (lookup_checksummed _ _ Hentry) as [Hr Hw].
  rewrite Hr, Hw. unfold Ok.
  destruct (json_load _) as [e | abi]; [discriminate | ].
  intros H. injection H as <-. exists entry. cbn.
  repeat split; try reflexivity; assumption.
Qed.

(** X13. Construction succeeds exactly when the network has an endpoint,
    the key loads and yields an account, the DEX is in the registry and
    its ABI file loads; the object then holds the endpoint, the key, the
    account, the name of the DEX, the two addresses of its registry
    entry, and a router contract at that router address. *)
Theorem construction_succeeds_iff dex network (trader : MemeCoinTrader Abi) :
  __init__ dex network = Ok trader
  <-> exists entry,
        SUPPORTED_DEXES !! dex = Some entry
        /\ endpoint network = Ok (w3 trader)
        /\ config "PRIVATE_KEY" = Ok (private_key trader)
        /\ from_key (private_key trader) = Ok (account trader)
        /\ json_load (dex +:+ "_router_abi.json") = Ok (router_abi trader)
        /\ current_dex trader = dex
        /\ router_address trader = router entry
        /\ weth_address trader = weth entry
        /\ router_contract trader
           = {| contract_address := router entry;
                contract_abi := router_abi trader |}.
Proof.
  split; [apply construction_succeeds_aux | ].
  rewrite init_steps. unfold bindR, Ok, Raise.
  - intros (entry & Hentry & Hnode & Hkey & Hacct & Habi & Hdex & Hr & Hw & Hc).
    destruct (lookup_checksummed _ _ Hentry) as [Hcr Hcw].
    rewrite Hnode, Hkey, Hacct, Hentry, Hcr, Hcw, Habi. unfold Ok.
    destruct trader. cbn in *. subst. reflexivity.
Qed.

(** X14. The order in which construction fails. A network other than
    ["ethereum"] and ["bsc"] is refused first, whatever the DEX; then a
    missing endpoint setting, a missing key and an unusable key are
    raised as they come, all of them before the DEX is looked at; a
    missing ABI file is raised last. *)
Theorem construction_fails_in_order dex network :
  (network <> "ethereum" -> network <> "bsc" ->
   __init__ dex network
   = Raise (ValueError ("Unsupported network: " +:+ network)))
  /\ (forall e, endpoint network = Raise e -> __init__ dex network = Raise e)
  /\ (forall node e,
        endpoint network = Ok node ->
        config "PRIVATE_KEY" = Raise e ->
        __init__ dex network = Raise e)
  /\ (forall node key e,
        endpoint network = Ok node ->
        config "PRIVATE_KEY" = Ok key ->
        from_key key = Raise e ->
        __init__ dex network = Raise e)
  /\ (forall node key acct entry e,
        endpoint network = Ok node ->
        config "PRIVATE_KEY" = Ok key ->
        from_key key = Ok acct ->
        SUPPORTED_DEXES !! dex = Some entry ->
        json_load (dex +:+ "_router_abi.json") = Raise e ->
        __init__ dex network = Raise e).
Proof.
  rewrite init_steps. unfold bindR, Ok, Raise.
  split; [ | split; [ | split; [ | split]]].
  - intros He Hb. unfold endpoint.
    apply String.eqb_neq in He, Hb. rewrite He, Hb. reflexivity.
  - intros e ->. reflexivity.
  - intros node e -> ->. reflexivity.
  - intros node key e -> -> ->. reflexivity.
  - intros node key acct entry e -> -> -> Hentry Habi. rewrite Hentry.
    destruct (lookup_checksummed _ _ Hentry) as [Hr Hw].
    rewrite Hr, Hw. unfold Ok. rewrite Habi. reflexivity.
Qed.

Lemma lookup_weth dex entry :
  SUPPORTED_DEXES !! dex = Some entry ->
  dex <> "pancakeswap" -> weth entry = WETH.
Proof.
  unfold SUPPORTED_DEXES. intros H Hne.
  rewrite lookup_insert in H. case_decide; [injection H as <-; reflexivity | ].
  rewrite lookup_insert in H. case_decide; [injection H as <-; reflexivity | ].
  rewrite lookup_insert in H. case_decide; [congruence | ].
  rewrite lookup_empty in H. discriminate.
Qed.

(** X15. On a session constructed for a DEX other than PancakeSwap, the
    path of a built swap starts (buying) or ends (selling) with the
    wrapped-native address the session holds. *)
Theorem swap_path_agrees_outside_pancakeswap
    dex network (st : State) b tx st' :
  __init__ dex network = Ok (self st) ->
  dex <> "pancakeswap" ->
  is_swap b = true ->
  transaction_of b st = (inr tx, st') ->
  match b with
  | Buy _ _ => head (path_of (tx_data tx)) = Some (weth_address (self st))
  | _ => last (path_of (tx_data tx)) = Some (weth_address (self st))
  end.
Proof.
  intros Hinit Hne Hs H.
  apply construction_succeeds_aux in Hinit.
  destruct Hinit as (entry & Hentry & _ & _ & _ & _ & _ & _ & Hw & _).
  rewrite Hw, (lookup_weth _ _ Hentry Hne).
  exact (proj2 (swap_path_has_two_hops _ _ _ _ Hs H)).
Qed.

(** X16. A constructed session deals with the contracts of its registry
    entry and with its own account only: a swap goes to the registered
    router, from the account of the loaded key and with that account as
    recipient; an approval goes to the token, from that account, and
    names the registered router as spender. *)
Theorem constructed_session_uses_registry
    dex network (st : State) b tx st' :
  __init__ dex network = Ok (self st) ->
  transaction_of b st = (inr tx, st') ->
  exists entry,
    SUPPORTED_DEXES !! dex = Some entry
    /\ from_key (private_key (self st)) = Ok (account (self st))
    /\ tx_from tx = address (account (self st))
    /\ match b with
       | Approve token =>
           to_checksum_address token = Ok (tx_to tx)
           /\ tx_data tx = approve (router entry) (2 ^ 256 - 1)
       | _ =>
           tx_to tx = router entry
           /\ recipient_of (tx_data tx) = Some (address (account (self st)))
       end.
Proof.
  intros Hinit H.
  apply construction_succeeds_aux in Hinit.
  destruct Hinit as (entry & Hentry & _ & _ & Hacct & _ & _ & Hr & _ & Hc).
  exists entry. split; [exact Hentry | ]. split; [exact Hacct | ].
  destruct b as [token amount | token amount | token]; cbn [transaction_of] in H.
  - apply buy_token_transaction_returns in H.
    destruct H as (tok & blk & v & p & n & wa & wb & wc & H).
    cbn zeta in H. destruct H as (_ & _ & _ & _ & _ & -> & _).
    cbn [tx_from tx_to tx_data recipient_of]. rewrite Hc. repeat split.
  - apply sell_token_transaction_returns in H.
    destruct H as (tok & blk & p & n & wa & wb & wc & H).
    cbn zeta in H. destruct H as (_ & _ & _ & _ & -> & _).
    cbn [tx_from tx_to tx_data recipient_of]. rewrite Hc. repeat split.
  - apply approve_token_transaction_returns in H.
    destruct H as (tok & abi & p & n & wa & wb & H).
    cbn zeta in H. destruct H as (Htok & _ & _ & _ & -> & _).
    cbn [tx_from tx_to tx_data]. rewrite Hr. repeat split. exact Htok.
Qed.

(** X17. On a constructed session the price is asked of the registered
    router, along the path from the token to the registered
    wrapped-native address, for the amount in smallest units; nothing
    else is asked. *)
Theorem price_query_uses_registry
    dex network (st : State) token tok amount :
  __init__ dex network = Ok (self st) ->
  to_checksum_address token = Ok tok ->
  exists entry made,
    SUPPORTED_DEXES !! dex = Some entry
    /\ during st (snd (get_token_price token amount st)) made
    /\ (made = []
        \/ exists v answer,
             to_wei amount = Ok v
             /\ made = [Call (w3 (self st)) (router entry)
                             (getAmountsOut v [tok; weth entry]) answer]).
Proof.
  intros Hinit Htok.
  apply construction_succeeds_aux in Hinit.
  destruct Hinit as (entry & Hentry & _ & _ & _ & _ & _ & _ & Hw & Hc).
  exists entry.
  unfold get_token_price, try_except, bind, eval, this, request, print, ret,
    during.
  rewrite Htok. unfold Ok, Raise. cbv beta iota. rewrite Hc, Hw.
  cbn [contract_address contract_abi].
  destruct (to_wei amount) as [e | v].
  { exists []. cbn [snd requests]. split; [exact Hentry | ].
    split; [symmetry; apply app_nil_r | left; reflexivity]. }
  match goal with
  | |- context [call ?n ?a ?i ?c ?w0] =>
      destruct (call n a i c w0) as [answer w]
  end.
  eexists [_]. split; [exact Hentry | ]. split.
  - destruct answer as [e | amounts]; cbn [self world stdout requests snd];
      [reflexivity | ].
    destruct (getitem amounts 1) as [e | quoted]; [reflexivity | ].
    destruct (from_wei quoted); reflexivity.
  - right. eauto.
Qed.

End Facts.

(** ** On the stubbed node *)

Section OnStub.

Import Stub.

Lemma init_uniswap_v2 :
  __init__ (E := steady) "uniswap_v2" "ethereum" = Ok uniswap_v2.
Proof. vm_compute. reflexivity. Qed.

Lemma init_pancakeswap :
  __init__ (E := steady) "pancakeswap" "bsc" = Ok pancakeswap.
Proof. vm_compute. reflexivity. Qed.

Lemma buy_on_uniswap_v2 :
  transaction_of (E := steady) (Buy token one_point_zero) st0
  = (Ok bought, st_built).
Proof. vm_compute. reflexivity. Qed.

Lemma buy_a_thirtieth_on_uniswap_v2 :
  transaction_of (E := steady) (Buy token a_thirtieth) st0
  = (Ok bought_a_thirtieth, st_built).
Proof. vm_compute. reflexivity. Qed.

Lemma sell_after_buy :
  transaction_of (E := steady) (Sell token 77) st_sent = (Ok sold, st_sold).
Proof. vm_compute. reflexivity. Qed.

Lemma approve_on_uniswap_v2 :
  approve_token_transaction (E := steady) token st0 = (Ok approved, st_approved).
Proof. vm_compute. reflexivity. Qed.

(** C1, at the failing input. A session on PancakeSwap holds the
    wrapped-native address of its registry entry, yet the swaps it builds
    start (when buying) and end (when selling) with [WETH], the address
    written into the two methods: the path has two elements, and the
    element that should be the wrapped-native address of the session is
    not. *)
Theorem swap_path_on_pancakeswap :
  __init__ (E := steady) "pancakeswap" "bsc" = Ok pancakeswap
  /\ weth_address pancakeswap = "0xbb4CdB9CBd36B01bD1cBaEBF2De08d9173bc095c"
  /\ buy_token_transaction (E := steady) token one_point_zero
                           (fresh pancakeswap)
     = (Ok bought_on_pancakeswap, st_built_on_pancakeswap)
  /\ path_of (tx_data bought_on_pancakeswap) = [WETH; Token]
  /\ head (path_of (tx_data bought_on_pancakeswap))
     <> Some (weth_address pancakeswap)
  /\ sell_token_transaction (E := steady) token 77 (fresh pancakeswap)
     = (Ok sold_on_pancakeswap, st_built_on_pancakeswap)
  /\ path_of (tx_data sold_on_pancakeswap) = [Token; WETH]
  /\ last (path_of (tx_data sold_on_pancakeswap))
     <> Some (weth_address pancakeswap).
Proof.
  split; [exact init_pancakeswap | ].
  repeat split; try (vm_compute; reflexivity); vm_compute; discriminate.
Qed.

(** C7, as stated, fails: with a token address that is not an address,
    [get_token_price] raises [ValueError] to its caller, the conversion
    of the address standing before the [try]. *)
Lemma get_token_price_raises_on_malformed_address :
  (exists msg,
      get_token_price (E := failing) "abc" one st0
      = (Raise (ValueError msg), st0))
  /\ ~ (exists r st',
          get_token_price (E := failing) "abc" one st0 = (Ok r, st')).
Proof.
  split.
  - eexists. vm_compute. reflexivity.
  - intros (r & st' & H). vm_compute in H. discriminate.
Qed.

(** C8, as stated, fails: with an identifier outside the registry and a
    network that is not supported either, construction fails with the
    unsupported-network error, the network being looked at first. *)
Lemma init_unsupported_dex_and_network :
  SUPPORTED_DEXES !! "raydium" = None
  /\ __init__ (E := steady) "raydium" "solana"
     = Raise (ValueError "Unsupported network: solana")
  /\ __init__ (E := steady) "raydium" "solana"
     <> Raise (ValueError "Unsupported DEX: raydium").
Proof.
  split; [vm_compute; reflexivity | ].
  split; [vm_compute; reflexivity | vm_compute; discriminate].
Qed.

(** *** The theorems at work *)


Lemma swap_minimum_output_witness :
  is_swap (Sell token 77) = true
  /\ transaction_of (E := steady) (Sell token 77) st_sent = (Ok sold, st_sold)
  /\ amountOutMin_of (tx_data sold) = Some 0.
Proof.
  split; [reflexivity | ]. split; [exact sell_after_buy | ].
  exact (swap_minimum_output_is_zero (E := steady) (Sell token 77) st_sent
           sold st_sold eq_refl sell_after_buy).
Defined.

Lemma approval_witness :
  approve_token_transaction (E := steady) token st0 = (Ok approved, st_approved)
  /\ tx_data approved = approve (router_address uniswap_v2) (2 ^ 256 - 1)
  /\ tx_gas approved = 100000.
Proof.
  split; [exact approve_on_uniswap_v2 | ].
  destruct (approval_is_unlimited_for_router (E := steady) token st0 approved
              st_approved approve_on_uniswap_v2) as (Hdata & _ & Hgas).
  split; [exact Hdata | exact Hgas].
Defined.

Lemma swap_gas_witness :
  is_swap (Buy token one_point_zero) = true
  /\ transaction_of (E := steady) (Buy token one_point_zero) st0
     = (Ok bought, st_built)
  /\ tx_gas bought = 250000.
Proof.
  split; [reflexivity | ]. split; [exact buy_on_uniswap_v2 | ].
  exact (swap_gas_is_250000 (E := steady) (Buy token one_point_zero) st0
           bought st_built eq_refl buy_on_uniswap_v2).
Defined.

Lemma swap_value_witness :
  transaction_of (E := steady) (Buy token one_point_zero) st0
  = (Ok bought, st_built)
  /\ to_wei one_point_zero = Ok (tx_value bought)
  /\ tx_value bought = 10 ^ 18
  /\ transaction_of (E := steady) (Buy token a_thirtieth) st0
     = (Ok bought_a_thirtieth, st_built)
  /\ to_wei a_thirtieth = Ok (tx_value bought_a_thirtieth)
  /\ tx_value bought_a_thirtieth = 33333333333333333
  /\ transaction_of (E := steady) (Sell token 77) st_sent = (Ok sold, st_sold)
  /\ tx_value sold = 0
  /\ amountIn_of (tx_data sold) = Some 77.
Proof.
  split; [exact buy_on_uniswap_v2 | ].
  split; [exact (swap_value_by_direction (E := steady)
                   (Buy token one_point_zero) st0 bought st_built
                   buy_on_uniswap_v2) | ].
  split; [reflexivity | ].
  split; [exact buy_a_thirtieth_on_uniswap_v2 | ].
  split; [exact (swap_value_by_direction (E := steady)
                   (Buy token a_thirtieth) st0 bought_a_thirtieth st_built
                   buy_a_thirtieth_on_uniswap_v2) | ].
  split; [reflexivity | ].
  split; [exact sell_after_buy | ].
  exact (swap_value_by_direction (E := steady) (Sell token 77) st_sent sold
           st_sold sell_after_buy).
Defined.


Lemma get_token_price_witness :
  to_checksum_address token = Ok Token
  /\ (exists st',
        get_token_price (E := failing) token one st0 = (Ok None, st')
        /\ stdout st' = ["Error getting price: execution reverted"])
  /\ (exists st',
        get_token_price (E := steady) token one st0
        = (Ok (Some {| mantissa := 2 * 10 ^ 15; scale := 18 |}), st')).
Proof.
  assert (Htok : to_checksum_address token = Ok Token)
    by (vm_compute; reflexivity).
  split; [exact Htok | ]. split.
  - destruct (get_token_price_recovers (E := failing) token Token one st0 Htok)
      as (_ & Hfail & _).
    eexists. split.
    + apply (Hfail (10 ^ 18)
                   (ExternalError "ContractLogicError" "execution reverted")
                   []); vm_compute; reflexivity.
    + reflexivity.
  - destruct (get_token_price_recovers (E := steady) token Token one st0 Htok)
      as (_ & _ & Hok).
    eexists.
    apply (Hok (10 ^ 18) [10 ^ 18; 2 * 10 ^ 15] [] (2 * 10 ^ 15));
      vm_compute; reflexivity.
Defined.

Lemma registry_lookup_witness :
  SUPPORTED_DEXES !! "pancakeswap"
  = Some {| router := "0x10ED43C718714eb63d5aA57B78B54704E256024E";
            name := "PancakeSwap";
            weth := "0xbb4CdB9CBd36B01bD1cBaEBF2De08d9173bc095c" |}
  /\ is_checksum_address "0x10ED43C718714eb63d5aA57B78B54704E256024E"
  /\ is_checksum_address "0xbb4CdB9CBd36B01bD1cBaEBF2De08d9173bc095c"
  /\ SUPPORTED_DEXES !! "raydium" = None
  /\ __init__ (E := steady) "raydium" "bsc"
     = Raise (ValueError "Unsupported DEX: raydium").
Proof.
  assert (Hin : SUPPORTED_DEXES !! "pancakeswap"
                = Some {| router := "0x10ED43C718714eb63d5aA57B78B54704E256024E";
                          name := "PancakeSwap";
                          weth := "0xbb4CdB9CBd36B01bD1cBaEBF2De08d9173bc095c" |})
    by (vm_compute; reflexivity).
  assert (Hout : SUPPORTED_DEXES !! "raydium" = None)
    by (vm_compute; reflexivity).
  split; [exact Hin | ].
  destruct (registry_lookup_at_construction (E := steady) "pancakeswap" "bsc")
    as [Hlookup _].
  destruct (Hlookup _ Hin) as (Hr & Hw & _).
  split; [exact Hr | ]. split; [exact Hw | ]. split; [exact Hout | ].
  destruct (registry_lookup_at_construction (E := steady) "raydium" "bsc")
    as [_ Hfail].
  destruct (Hfail Hout) as [_ Herr].
  apply (Herr "https://bsc.example/" "0x01" {| address := account_address |}).
  - right. split; reflexivity.
  - reflexivity.
  - reflexivity.
Defined.

(** *** The further properties at work *)

Lemma buy_returns_on_uniswap_v2 :
  perform (E := steady) (Buy token one_point_zero) st0
  = (Ok receipt_of_buy, st_sent).
Proof. vm_compute. reflexivity. Qed.

Lemma buy_is_built_for_refusing_node :
  transaction_of (E := refusing) (Buy token one_point_zero) st0
  = (Ok bought, st_built).
Proof. vm_compute. reflexivity. Qed.

Lemma token_checksummed : to_checksum_address token = Ok Token.
Proof. vm_compute. reflexivity. Qed.

Lemma price_on_uniswap_v2 :
  get_token_price (E := steady) token one st0
  = (Ok (Some {| mantissa := 2 * 10 ^ 15; scale := 18 |}), st_quoted).
Proof. vm_compute. reflexivity. Qed.


Lemma malformed_address_witness :
  to_checksum_address "abc" = Raise (ValueError "Unknown format abc")
  /\ buy_token (E := steady) "abc" one st0
     = (Raise (ValueError "Unknown format abc"), st0)
  /\ approve_token (E := steady) "abc" st0
     = (Raise (ValueError "Unknown format abc"), st0).
Proof.
  assert (H : to_checksum_address "abc"
              = Raise (ValueError "Unknown format abc"))
    by (vm_compute; reflexivity).
  destruct (malformed_address_is_refused (E := steady) "abc" _ st0 H)
    as (_ & _ & Hbuy & _ & Happrove).
  split; [exact H | ]. split; [apply Hbuy | exact Happrove].
Defined.

Lemma bad_amount_witness :
  to_checksum_address token = Ok Token
  /\ mantissa minus_one < 0
  /\ exists e answer w,
       get_block (Externals := steady) (w3 uniswap_v2) "latest" [] = (answer, w)
       /\ buy_token (E := steady) token minus_one st0
          = (Raise e,
             {| self := uniswap_v2; world := w; stdout := [];
                requests := [GetBlock (w3 uniswap_v2) "latest" answer] |}).
Proof.
  split; [exact token_checksummed | ]. split; [reflexivity | ].
  destruct (buy_token_refuses_bad_amount (E := steady) token Token minus_one
              st0 token_checksummed (or_introl eq_refl))
    as (e & answer & w & Hblk & Hbuy & _).
  exists e, answer, w. split; [exact Hblk | exact Hbuy].
Defined.

Lemma perform_returns_witness :
  perform (E := steady) (Buy token one_point_zero) st0
  = (Ok receipt_of_buy, st_sent)
  /\ exists signed,
       sign_transaction (Externals := steady) bought "0x01" = Ok signed
       /\ sent (requests st_sent) = [rawTransaction signed].
Proof.
  split; [exact buy_returns_on_uniswap_v2 | ].
  destruct (perform_returns (E := steady) (Buy token one_point_zero) st0
              receipt_of_buy st_sent buy_returns_on_uniswap_v2)
    as (tx & st1 & signed & tx_hash & w & Hbuild & Hsign & Hsend & _ & _).
  rewrite buy_on_uniswap_v2 in Hbuild. injection Hbuild as <- <-.
  exists signed. split; [exact Hsign | ].
  vm_compute in Hsign. injection Hsign as <-. reflexivity.
Defined.

Lemma swap_call_exchanges_witness :
  is_swap (Buy token one_point_zero) = true
  /\ perform (E := steady) (Buy token one_point_zero) st0
     = (Ok receipt_of_buy, st_sent)
  /\ length (requests st_sent) = 5%nat.
Proof.
  split; [reflexivity | ]. split; [exact buy_returns_on_uniswap_v2 | ].
  destruct (swap_call_exchanges (E := steady) (Buy token one_point_zero) st0
              receipt_of_buy st_sent eq_refl buy_returns_on_uniswap_v2)
    as (blk & p & n & raw & tx_hash & Hd).
  cbn zeta in Hd. unfold during in Hd. rewrite Hd. reflexivity.
Defined.

Lemma refused_transaction_witness :
  transaction_of (E := refusing) (Buy token one_point_zero) st0
  = (Ok bought, st_built)
  /\ exists st',
       perform (E := refusing) (Buy token one_point_zero) st0
       = (Raise (ExternalError "ValueError" "nonce too low"), st')
       /\ sent (requests st') = [[5; 250000; 30; 1000000000000000000]]
       /\ world st' = [].
Proof.
  split; [exact buy_is_built_for_refusing_node | ].
  destruct (perform_fails_without_retry (E := refusing)
              (Buy token one_point_zero) st0 bought st_built
              buy_is_built_for_refusing_node)
    as (_ & Hrefused & _).
  eexists. split.
  - apply (Hrefused
             {| rawTransaction := [5; 250000; 30; 1000000000000000000] |}
             (ExternalError "ValueError" "nonce too low") []);
      reflexivity.
  - split; reflexivity.
Defined.

Lemma gas_price_witness :
  transaction_of (E := steady) (Sell token 77) st_sent = (Ok sold, st_sold)
  /\ exists before n,
       during st_sent st_sold
         (before ++
          [GasPrice (w3 uniswap_v2) (Ok 30);
           GetTransactionCount (w3 uniswap_v2) account_address (Ok n)]).
Proof.
  split; [exact sell_after_buy | ].
  exact (gas_price_is_fetched (E := steady) (Sell token 77) st_sent sold
           st_sold sell_after_buy).
Defined.

Lemma checksummed_addresses_witness :
  transaction_of (E := steady) (Buy token one_point_zero) st0
  = (Ok bought, st_built)
  /\ Forall is_checksum_address [WETH; Token].
Proof.
  split; [exact buy_on_uniswap_v2 | ].
  exact (proj1 (built_addresses_are_checksummed (E := steady)
                  (Buy token one_point_zero) st0 bought st_built
                  buy_on_uniswap_v2)).
Defined.

Lemma checksummed_form_witness :
  to_checksum_address token = Ok Token
  /\ buy_token (E := steady) Token one_point_zero st0
     = buy_token (E := steady) token one_point_zero st0
  /\ get_token_price (E := steady) Token one st0
     = get_token_price (E := steady) token one st0.
Proof.
  split; [exact token_checksummed | ].
  destruct (checksummed_form_is_equivalent (E := steady) token Token
              token_checksummed) as (Hprice & Hbuy & _).
  split; [apply Hbuy | apply Hprice].
Defined.

Lemma price_outcome_witness :
  to_checksum_address token = Ok Token
  /\ get_token_price (E := steady) token one st0
     = (Ok (Some {| mantissa := 2 * 10 ^ 15; scale := 18 |}), st_quoted)
  /\ stdout st_quoted = stdout st0
  /\ 0 <= 2 * 10 ^ 15 <= 2 ^ 256 - 1.
Proof.
  split; [exact token_checksummed | ]. split; [exact price_on_uniswap_v2 | ].
  destruct (get_token_price_outcome (E := steady) token Token one st0 _ _
              token_checksummed price_on_uniswap_v2)
    as (Hout & Hrange & _).
  split; [exact Hout | exact Hrange].
Defined.

Lemma price_edges_witness :
  to_checksum_address token = Ok Token
  /\ (exists msg,
        get_token_price (E := steady) token minus_one st0
        = (Ok None,
           {| self := uniswap_v2; world := [];
              stdout := ["Error getting price: " +:+ msg];
              requests := [] |}))
  /\ (exists st',
        get_token_price (E := terse) token one st0 = (Ok None, st')
        /\ stdout st' = ["Error getting price: list index out of range"]).
Proof.
  split; [exact token_checksummed | ]. split.
  - destruct (get_token_price_edges (E := steady) token Token minus_one st0
                token_checksummed) as (Hamount & _ & _).
    exists "Resulting wei value must be between 1 and 2**256 - 1".
    apply (Hamount
             (ValueError
                "Resulting wei value must be between 1 and 2**256 - 1")).
    vm_compute. reflexivity.
  - destruct (get_token_price_edges (E := terse) token Token one st0
                token_checksummed) as (_ & Hshort & _).
    eexists. split.
    + apply (Hshort (10 ^ 18) [10 ^ 18] []);
        [vm_compute; reflexivity | vm_compute; reflexivity | cbn; lia].
    + reflexivity.
Defined.

Lemma construction_order_witness :
  __init__ (E := steady) "uniswap_v2" "solana"
  = Raise (ValueError "Unsupported network: solana").
Proof.
  destruct (construction_fails_in_order (E := steady) "uniswap_v2" "solana")
    as (Hnetwork & _).
  apply Hnetwork; discriminate.
Defined.

Lemma path_agrees_witness :
  __init__ (E := steady) "uniswap_v2" "ethereum" = Ok (self st0)
  /\ "uniswap_v2" <> "pancakeswap"
  /\ transaction_of (E := steady) (Buy token one_point_zero) st0
     = (Ok bought, st_built)
  /\ head (path_of (tx_data bought)) = Some (weth_address uniswap_v2).
Proof.
  assert (Hne : "uniswap_v2" <> "pancakeswap") by discriminate.
  split; [exact init_uniswap_v2 | ]. split; [exact Hne | ].
  split; [exact buy_on_uniswap_v2 | ].
  exact (swap_path_agrees_outside_pancakeswap (E := steady)
           "uniswap_v2" "ethereum" st0 (Buy token one_point_zero) bought
           st_built init_uniswap_v2 Hne eq_refl buy_on_uniswap_v2).
Defined.

Lemma registry_use_witness :
  __init__ (E := steady) "uniswap_v2" "ethereum" = Ok (self st0)
  /\ approve_token_transaction (E := steady) token st0
     = (Ok approved, st_approved)
  /\ tx_from approved = account_address
  /\ to_checksum_address token = Ok (tx_to approved)
  /\ tx_data approved
     = approve "0x7a250d5630B4cF539739dF2C5dAcb4c659F2488D" (2 ^ 256 - 1).
Proof.
  split; [exact init_uniswap_v2 | ]. split; [exact approve_on_uniswap_v2 | ].
  destruct (constructed_session_uses_registry (E := steady)
              "uniswap_v2" "ethereum" st0 (Approve token) approved
              st_approved init_uniswap_v2 approve_on_uniswap_v2)
    as (entry & _ & _ & Hfrom & Hto & _).
  split; [exact Hfrom | ]. split; [exact Hto | reflexivity].
Defined.

Lemma price_query_registry_witness :
  __init__ (E := steady) "uniswap_v2" "ethereum" = Ok (self st0)
  /\ to_checksum_address token = Ok Token
  /\ exists entry made,
       SUPPORTED_DEXES !! "uniswap_v2" = Some entry
       /\ during st0 st_quoted made
       /\ (made = []
           \/ exists v answer,
                to_wei one = Ok v
                /\ made = [Call (w3 uniswap_v2) (router entry)
                                (getAmountsOut v [Token; weth entry])
                                answer]).
Proof.
  split; [exact init_uniswap_v2 | ]. split; [exact token_checksummed | ].
  pose proof (price_query_uses_registry (E := steady) "uniswap_v2" "ethereum"
                st0 token Token one init_uniswap_v2 token_checksummed) as H.
  rewrite price_on_uniswap_v2 in H. exact H.
Defined.

End OnStub.
